(** * Stepper MQTT controller: a shallow embedding and its properties

    The development follows [stepper_mqtt_controller.py] and
    [modbus_connection.py].  Python values that travel through the
    controller (JSON payloads, register words, acknowledgment documents)
    are modelled by the inductive type [pyval]; Python exceptions by the
    type [exn]; the mutable objects ([ModbusConnection._connected],
    [StepperMQTTController.status], [.positions]) by an explicit state that
    is threaded through a small state-and-exception monad.  A raised
    exception keeps every mutation made before it, as in Python.

    The two external collaborators are not part of the repository:
    - the pymodbus serial client is an oracle [environment] that maps the
      index of a call and the request to a reply (normal result, error
      result, or a raised exception);
    - the MQTT client is a sink: every [publish] is recorded in the trace.

    The lock [self.lock] is held around every register transaction; the
    model is sequential, so [with self.parent.lock:] is the identity (an
    exception leaving the block releases the lock).  Log lines leave no
    trace.

    Strings are sequences of bytes.  The library functions [int], [float],
    [str.split], [str.replace] and [json.loads] are modelled on ASCII
    text; the callback receives the payload already decoded (a payload
    that is not UTF-8 raises in [decode], inside the same [try] block, and
    the callback returns before it looks at the topic). *)

From Stdlib Require Import ZArith List String Ascii Bool Lia DecimalString.
From Stdlib Require DecimalPos.
Import ListNotations.

Local Open Scope string_scope.
Local Open Scope list_scope.
Local Open Scope Z_scope.
Set Warnings "-register-all".

(** ** Python values *)

(** A Python [float]: a finite binary64 value [(-1)^neg * m * 2^e] with
    [0 <= m < 2^53], an infinity, or a NaN. *)
Inductive pyfloat : Type :=
| FFinite (neg : bool) (m e : Z)
| FInf (neg : bool)
| FNan.

Inductive pyval : Type :=
| VNone
| VBool (b : bool)
| VInt (z : Z)
| VFloat (f : pyfloat)
| VStr (s : string)
| VList (l : list pyval)
| VDict (d : list (string * pyval)).

(** Exceptions that the modelled code can raise. [TransportExc] stands for
    whatever the pymodbus client raises (all are subclasses of
    [Exception]). *)
Inductive exn : Type :=
| ValueError
| TypeError
| AttributeError
| OverflowError
| TransportExc.

Inductive outcome (A : Type) : Type :=
| Ret (a : A)
| Raise (e : exn).
Arguments Ret {A} a.
Arguments Raise {A} e.

Module Py.

(** *** Characters *)

Definition is_digit (c : ascii) : bool :=
  let n := Z.of_N (N_of_ascii c) in (48 <=? n) && (n <=? 57).

Definition digit_val (c : ascii) : Z := Z.of_N (N_of_ascii c) - 48.

(** The white space that [int] and [float] skip around an ASCII literal:
    TAB, LF, VT, FF, CR and SPACE. *)
Definition is_space (c : ascii) : bool :=
  let n := Z.of_N (N_of_ascii c) in
  ((9 <=? n) && (n <=? 13)) || (n =? 32).

Definition lower (c : ascii) : ascii :=
  let n := N_of_ascii c in
  if ((65 <=? n) && (n <=? 90))%N then ascii_of_N (n + 32) else c.

Fixpoint lstrip (cs : list ascii) : list ascii :=
  match cs with
  | c :: r => if is_space c then lstrip r else cs
  | [] => []
  end.

(** The literal without the white space around it. *)
Definition strip (cs : list ascii) : list ascii :=
  rev (lstrip (rev (lstrip cs))).

Fixpoint strip_prefix (p cs : list ascii) : option (list ascii) :=
  match p, cs with
  | [], _ => Some cs
  | a :: p', c :: cs' => if Ascii.eqb a c then strip_prefix p' cs' else None
  | _ :: _, [] => None
  end.

(** *** [str.split(sep)] for a one-character separator *)

Fixpoint split_aux (sep : ascii) (cur : list ascii) (cs : list ascii)
  : list string :=
  match cs with
  | [] => [string_of_list_ascii (rev cur)]
  | c :: r =>
      if Ascii.eqb c sep
      then string_of_list_ascii (rev cur) :: split_aux sep [] r
      else split_aux sep (c :: cur) r
  end.

Definition split (s : string) (sep : ascii) : list string :=
  split_aux sep [] (list_ascii_of_string s).

(** *** [str.replace(old, new)] with a non-empty [old]: the occurrences
    are replaced from left to right, without overlap. *)

Fixpoint replace_aux (old new : list ascii) (fuel : nat) (cs : list ascii)
  : list ascii :=
  match fuel with
  | O => cs
  | S f =>
      match strip_prefix old cs with
      | Some r => new ++ replace_aux old new f r
      | None =>
          match cs with
          | [] => []
          | c :: r => c :: replace_aux old new f r
          end
      end
  end.

Definition replace (s old new : string) : string :=
  let cs := list_ascii_of_string s in
  string_of_list_ascii
    (replace_aux (list_ascii_of_string old) (list_ascii_of_string new)
       (S (List.length cs)) cs).

(** *** Decimal digit runs

    [digits] reads [digit (["_"] digit)*] and returns the value read so
    far, the number of digits and the unread rest.  An underscore is
    only accepted between two digits, as in Python numeric literals. *)

Fixpoint digits (cs : list ascii) (acc cnt : Z) : Z * Z * list ascii :=
  match cs with
  | c :: r =>
      if is_digit c then digits r (10 * acc + digit_val c) (cnt + 1)
      else if Ascii.eqb c "_" && (0 <? cnt) then
        match r with
        | c2 :: _ => if is_digit c2 then digits r acc cnt else (acc, cnt, cs)
        | [] => (acc, cnt, cs)
        end
      else (acc, cnt, cs)
  | [] => (acc, cnt, cs)
  end.

Definition sign (cs : list ascii) : bool * list ascii :=
  match cs with
  | c :: r =>
      if Ascii.eqb c "-" then (true, r)
      else if Ascii.eqb c "+" then (false, r)
      else (false, cs)
  | [] => (false, cs)
  end.

(** *** [int(s)] for a string argument (base 10) *)

Definition int_of_str (s : string) : option Z :=
  let cs := strip (list_ascii_of_string s) in
  let '(neg, r) := sign cs in
  match digits r 0 0 with
  | (v, cnt, []) => if 0 <? cnt then Some (if neg then - v else v) else None
  | _ => None
  end.

Definition int_str (s : string) : outcome Z :=
  match int_of_str s with
  | Some z => Ret z
  | None => Raise ValueError
  end.

(** *** Binary64 rounding

    [round64 n d] rounds the positive rational [n / d] to the nearest
    binary64 value, ties to even, as CPython's [float(str)] does
    (correctly rounded).  The result [Some (m, e)] stands for
    [m * 2^e]; [None] is an overflow to infinity. *)

(** [d * 2^l <= n], for [l] of either sign. *)
Definition ge_scaled (n d l : Z) : bool :=
  if 0 <=? l then d * 2 ^ l <=? n else d <=? n * 2 ^ (- l).

Definition round64 (n d : Z) : option (Z * Z) :=
  let l0 := Z.log2 n - Z.log2 d in
  let l := if ge_scaled n d l0 then l0 else l0 - 1 in
  let e := Z.max (l - 52) (-1074) in
  let n' := if 0 <=? e then n else n * 2 ^ (- e) in
  let d' := if 0 <=? e then d * 2 ^ e else d in
  let q := n' / d' in
  let r := n' mod d' in
  let m :=
    if 2 * r <? d' then q
    else if 2 * r =? d' then (if Z.even q then q else q + 1)
    else q + 1 in
  let '(m, e) := if m =? 2 ^ 53 then (2 ^ 52, e + 1) else (m, e) in
  if 971 <? e then None else Some (m, e).

(** The float nearest to [(-1)^neg * digs * 10^k]. *)
Definition float_of_decimal (neg : bool) (digs k : Z) : pyfloat :=
  if digs =? 0 then FFinite neg 0 0
  else
    match (if 0 <=? k then round64 (digs * 10 ^ k) 1
           else round64 digs (10 ^ (- k))) with
    | Some (m, e) => FFinite neg m e
    | None => FInf neg
    end.

(** The unsigned decimal part of a float literal:
    [digits? ("." digits?)? ([eE] [+-]? digits)?] with at least one digit
    before the exponent.  Returns the digits, the decimal exponent and
    the unread rest. *)
Definition decimal (cs : list ascii) : option (Z * Z * list ascii) :=
  let '(iv, icnt, r1) := digits cs 0 0 in
  let '(v, fcnt, r2) :=
    match r1 with
    | c :: r =>
        if Ascii.eqb c "." then
          let '(v, cnt, r') := digits r iv 0 in (v, cnt, r')
        else (iv, 0, r1)
    | [] => (iv, 0, r1)
    end in
  if (icnt + fcnt =? 0) then None
  else
    match r2 with
    | c :: r =>
        if Ascii.eqb (lower c) "e" then
          let '(eneg, r3) := sign r in
          let '(ev, ecnt, r4) := digits r3 0 0 in
          if 0 <? ecnt
          then Some (v, (if eneg then - ev else ev) - fcnt, r4)
          else None
        else Some (v, - fcnt, r2)
    | [] => Some (v, - fcnt, r2)
    end.

(** *** [float(s)] for a string argument *)

Definition float_of_str (s : string) : option pyfloat :=
  let cs := strip (list_ascii_of_string s) in
  let '(neg, r) := sign cs in
  let low := map lower r in
  if list_eq_dec ascii_dec low (list_ascii_of_string "inf") then Some (FInf neg)
  else if list_eq_dec ascii_dec low (list_ascii_of_string "infinity")
  then Some (FInf neg)
  else if list_eq_dec ascii_dec low (list_ascii_of_string "nan") then Some FNan
  else
    match decimal r with
    | Some (v, k, []) => Some (float_of_decimal neg v k)
    | _ => None
    end.

Definition float_str (s : string) : outcome pyfloat :=
  match float_of_str s with
  | Some f => Ret f
  | None => Raise ValueError
  end.

(** *** [int(x)] for a float argument: truncation toward zero *)

Definition trunc (neg : bool) (m e : Z) : Z :=
  let a := if 0 <=? e then m * 2 ^ e else m / 2 ^ (- e) in
  if neg then - a else a.

Definition int_float (f : pyfloat) : outcome Z :=
  match f with
  | FFinite neg m e => Ret (trunc neg m e)
  | FInf _ => Raise OverflowError
  | FNan => Raise ValueError
  end.

(** *** Truthiness, [dict.get], bit operators *)

Definition float_is_zero (f : pyfloat) : bool :=
  match f with FFinite _ m _ => m =? 0 | _ => false end.

(** [bool(v)] *)
Definition truthy (v : pyval) : bool :=
  match v with
  | VNone => false
  | VBool b => b
  | VInt z => negb (z =? 0)
  | VFloat f => negb (float_is_zero f)
  | VStr s => negb (String.eqb s EmptyString)
  | VList l => match l with [] => false | _ => true end
  | VDict d => match d with [] => false | _ => true end
  end.

Fixpoint lookup (d : list (string * pyval)) (k : string) : option pyval :=
  match d with
  | [] => None
  | (k', v) :: r => if String.eqb k' k then Some v else lookup r k
  end.

(** [d[k] = v] on a dict kept as an association list without duplicate
    keys: an existing key keeps its place. *)
Fixpoint store (d : list (string * pyval)) (k : string) (v : pyval)
  : list (string * pyval) :=
  match d with
  | [] => [(k, v)]
  | (k', v') :: r =>
      if String.eqb k' k then (k, v) :: r else (k', v') :: store r k v
  end.

(** [params.get(key, default)]: only a dict has a [get] method. *)
Definition get (params : pyval) (key : string) (default : pyval)
  : outcome pyval :=
  match params with
  | VDict d =>
      Ret (match lookup d key with Some v => v | None => default end)
  | _ => Raise AttributeError
  end.

(** [v & mask] for an [int] mask *)
Definition and_ (v : pyval) (mask : Z) : outcome pyval :=
  match v with
  | VInt z => Ret (VInt (Z.land z mask))
  | VBool b => Ret (VInt (Z.land (if b then 1 else 0) mask))
  | _ => Raise TypeError
  end.

(** [v >> n] for an [int] shift *)
Definition rshift (v : pyval) (n : Z) : outcome pyval :=
  match v with
  | VInt z => Ret (VInt (Z.shiftr z n))
  | VBool b => Ret (VInt (Z.shiftr (if b then 1 else 0) n))
  | _ => Raise TypeError
  end.

(** [str(z)] for an [int] *)
Definition str_int (z : Z) : string :=
  NilZero.string_of_int (Z.to_int z).

End Py.

(** ** [json.loads]

    The decoder of the Python standard library, on a byte-per-character
    string: whitespace is SPACE, TAB, LF and CR; objects become dicts (a
    repeated key keeps its first position and its last value), arrays
    become lists, a number with a fraction or an exponent becomes a float
    and any other number an int; [NaN], [Infinity] and [-Infinity] are
    accepted; a control character inside a string, a trailing comma or
    text after the document is an error.  Every [\uXXXX] escape is stored
    as the UTF-8 bytes of its code point.  [None] stands for
    [json.JSONDecodeError]. *)

Module Json.
Import Py.

Definition dquote : ascii := ascii_of_N 34.
Definition backslash : ascii := ascii_of_N 92.

Definition is_ws (c : ascii) : bool :=
  let n := N_of_ascii c in
  ((n =? 32) || (n =? 9) || (n =? 10) || (n =? 13))%N.

Fixpoint skip_ws (cs : list ascii) : list ascii :=
  match cs with
  | c :: r => if is_ws c then skip_ws r else cs
  | [] => []
  end.

Definition hex_val (c : ascii) : option Z :=
  let n := Z.of_N (N_of_ascii c) in
  if (48 <=? n) && (n <=? 57) then Some (n - 48)
  else if (65 <=? n) && (n <=? 70) then Some (n - 55)
  else if (97 <=? n) && (n <=? 102) then Some (n - 87)
  else None.

Definition hex4 (a b c d : ascii) : option Z :=
  match hex_val a, hex_val b, hex_val c, hex_val d with
  | Some x, Some y, Some z, Some w => Some (((x * 16 + y) * 16 + z) * 16 + w)
  | _, _, _, _ => None
  end.

Definition byte (z : Z) : ascii := ascii_of_N (Z.to_N z).

Definition utf8 (cp : Z) : list ascii :=
  if cp <? 128 then [byte cp]
  else if cp <? 2048 then [byte (192 + cp / 64); byte (128 + cp mod 64)]
  else [byte (224 + cp / 4096); byte (128 + (cp / 64) mod 64);
        byte (128 + cp mod 64)].

Definition simple_escape (c : ascii) : option ascii :=
  if Ascii.eqb c dquote then Some dquote
  else if Ascii.eqb c backslash then Some backslash
  else if Ascii.eqb c "/" then Some "/"%char
  else if Ascii.eqb c "b" then Some (ascii_of_N 8)
  else if Ascii.eqb c "f" then Some (ascii_of_N 12)
  else if Ascii.eqb c "n" then Some (ascii_of_N 10)
  else if Ascii.eqb c "r" then Some (ascii_of_N 13)
  else if Ascii.eqb c "t" then Some (ascii_of_N 9)
  else None.

(** The text of a string after its opening quote, up to and including
    the closing quote. *)
Fixpoint scanstring (cs : list ascii) (acc : list ascii)
  : option (string * list ascii) :=
  match cs with
  | [] => None
  | c :: r =>
      if Ascii.eqb c dquote then Some (string_of_list_ascii (rev acc), r)
      else if Ascii.eqb c backslash then
        match r with
        | [] => None
        | e :: r1 =>
            if Ascii.eqb e "u" then
              match r1 with
              | h1 :: h2 :: h3 :: h4 :: r2 =>
                  match hex4 h1 h2 h3 h4 with
                  | Some cp => scanstring r2 (rev (utf8 cp) ++ acc)
                  | None => None
                  end
              | _ => None
              end
            else
              match simple_escape e with
              | Some x => scanstring r1 (x :: acc)
              | None => None
              end
        end
      else if (N_of_ascii c <? 32)%N then None
      else scanstring r (c :: acc)
  end.

(** Plain digit run (no underscores). *)
Fixpoint pdigits (cs : list ascii) (acc cnt : Z) : Z * Z * list ascii :=
  match cs with
  | c :: r =>
      if is_digit c then pdigits r (10 * acc + digit_val c) (cnt + 1)
      else (acc, cnt, cs)
  | [] => (acc, cnt, cs)
  end.

(** A JSON number: an optional minus, then a single zero or a digit run
    that does not start with zero, then an optional fraction (a dot and
    at least one digit) and an optional exponent (e or E, an optional
    sign, at least one digit).  A part that does not match in full is
    left unread. *)
Definition number (cs : list ascii) : option (pyval * list ascii) :=
  let '(neg, r0) :=
    match cs with
    | c :: r => if Ascii.eqb c "-" then (true, r) else (false, cs)
    | [] => (false, cs)
    end in
  match r0 with
  | [] => None
  | c :: r =>
      if negb (is_digit c) then None
      else
        let '(iv, _, r1) :=
          if Ascii.eqb c "0" then (0, 1, r) else pdigits r0 0 0 in
        let '(v, fcnt, r2) :=
          match r1 with
          | p :: r' =>
              if Ascii.eqb p "." then
                let '(v, cnt, r'') := pdigits r' iv 0 in
                if 0 <? cnt then (v, cnt, r'') else (iv, 0, r1)
              else (iv, 0, r1)
          | [] => (iv, 0, r1)
          end in
        let '(ex, r3) :=
          match r2 with
          | x :: r' =>
              if Ascii.eqb (lower x) "e" then
                let '(eneg, r'') :=
                  match r' with
                  | s :: t =>
                      if Ascii.eqb s "-" then (true, t)
                      else if Ascii.eqb s "+" then (false, t)
                      else (false, r')
                  | [] => (false, r')
                  end in
                let '(ev, ecnt, r''') := pdigits r'' 0 0 in
                if 0 <? ecnt
                then (Some (if eneg then - ev else ev), r''')
                else (None, r2)
              else (None, r2)
          | [] => (None, r2)
          end in
        match ex with
        | None =>
            if fcnt =? 0 then Some (VInt (if neg then - v else v), r3)
            else Some (VFloat (float_of_decimal neg v (- fcnt)), r3)
        | Some k => Some (VFloat (float_of_decimal neg v (k - fcnt)), r3)
        end
  end.

Definition lit (s : string) (cs : list ascii) : option (list ascii) :=
  strip_prefix (list_ascii_of_string s) cs.

Definition constant (cs : list ascii) : option (pyval * list ascii) :=
  match lit "null" cs with Some r => Some (VNone, r) | None =>
  match lit "true" cs with Some r => Some (VBool true, r) | None =>
  match lit "false" cs with Some r => Some (VBool false, r) | None =>
  match number cs with Some x => Some x | None =>
  match lit "NaN" cs with Some r => Some (VFloat FNan, r) | None =>
  match lit "Infinity" cs with Some r => Some (VFloat (FInf false), r) | None =>
  match lit "-Infinity" cs with Some r => Some (VFloat (FInf true), r) | None =>
  None end end end end end end end.

Fixpoint value (fuel : nat) (cs : list ascii) {struct fuel}
  : option (pyval * list ascii) :=
  match fuel with
  | O => None
  | S f =>
      match cs with
      | [] => None
      | c :: r =>
          if Ascii.eqb c dquote then
            match scanstring r [] with
            | Some (s, r') => Some (VStr s, r')
            | None => None
            end
          else if Ascii.eqb c "{" then
            match skip_ws r with
            | c' :: r' =>
                if Ascii.eqb c' "}" then Some (VDict [], r')
                else members f (c' :: r') []
            | [] => None
            end
          else if Ascii.eqb c "[" then
            match skip_ws r with
            | c' :: r' =>
                if Ascii.eqb c' "]" then Some (VList [], r')
                else elements f (c' :: r') []
            | [] => None
            end
          else constant cs
      end
  end
with members (fuel : nat) (cs : list ascii) (acc : list (string * pyval))
       {struct fuel} : option (pyval * list ascii) :=
  match fuel with
  | O => None
  | S f =>
      match cs with
      | q :: r =>
          if negb (Ascii.eqb q dquote) then None
          else
            match scanstring r [] with
            | None => None
            | Some (k, r1) =>
                match skip_ws r1 with
                | c :: r2 =>
                    if negb (Ascii.eqb c ":") then None
                    else
                      match value f (skip_ws r2) with
                      | None => None
                      | Some (v, r3) =>
                          match skip_ws r3 with
                          | e :: r4 =>
                              if Ascii.eqb e "}"
                              then Some (VDict (store acc k v), r4)
                              else if Ascii.eqb e ","
                              then members f (skip_ws r4) (store acc k v)
                              else None
                          | [] => None
                          end
                      end
                | [] => None
                end
            end
      | [] => None
      end
  end
with elements (fuel : nat) (cs : list ascii) (acc : list pyval)
       {struct fuel} : option (pyval * list ascii) :=
  match fuel with
  | O => None
  | S f =>
      match value f cs with
      | None => None
      | Some (v, r1) =>
          match skip_ws r1 with
          | e :: r2 =>
              if Ascii.eqb e "]" then Some (VList (rev (v :: acc)), r2)
              else if Ascii.eqb e ","
              then elements f (skip_ws r2) (v :: acc)
              else None
          | [] => None
          end
      end
  end.

Definition loads (s : string) : option pyval :=
  let cs := list_ascii_of_string s in
  match value (S (List.length cs)) (skip_ws cs) with
  | Some (v, r) =>
      match skip_ws r with
      | [] => Some v
      | _ :: _ => None
      end
  | None => None
  end.

(** Payloads are written with single quotes in the examples below;
    [text] turns every single quote into a double quote. *)
Definition text (s : string) : string :=
  string_of_list_ascii
    (map (fun c => if Ascii.eqb c "'" then dquote else c)
       (list_ascii_of_string s)).

End Json.

(** ** The world outside the repository *)

(** A call on the serial side.  The same constructors record, under
    [Link], the arguments that a method of [ModbusConnection] received,
    bound by position to its parameters [(address, count or values or
    value, slave_id)]. *)
Inductive request : Type :=
| SerialOpen
| ClientConnect
| ClientClose
| ReadHoldingRegisters (address count slave : Z)
| WriteRegisters (address : Z) (values : list pyval) (slave : Z)
| WriteRegister (address value slave : Z).

(** What the pymodbus client answers: a response whose [isError()] is
    false (with the registers read, for a read), a response whose
    [isError()] is true, or a raised exception.  For [ClientConnect] the
    first is [True] and the second [False]; opening the serial port
    either returns or raises, so for [SerialOpen] only [Raises] is a
    failure. *)
Inductive reply : Type :=
| Ok (registers : list Z)
| Error
| Raises.

Inductive event : Type :=
| Link (r : request)
| Wire (r : request)
| Publish (topic : string) (message : pyval).

(** The serial device and its client: the reply to the [n]-th call. *)
Definition environment : Type := nat -> request -> reply.

(** ** State and monad *)

Record state : Type := mkState {
  slave_id : Z;                 (* StepperMQTTController.slave_id *)
  _connected : bool;            (* ModbusConnection._connected *)
  status_connected : bool;      (* status["connected"] *)
  status_error : pyval;         (* status["error"] *)
  positions : Z * Z;            (* positions["axis_0"], positions["axis_1"] *)
  calls : nat;                  (* calls made on the serial side so far *)
  trace : list event            (* oldest first *)
}.

Definition set_connected (b : bool) (s : state) : state :=
  mkState (slave_id s) b (status_connected s) (status_error s) (positions s)
    (calls s) (trace s).

Definition set_status_connected (b : bool) (s : state) : state :=
  mkState (slave_id s) (_connected s) b (status_error s) (positions s)
    (calls s) (trace s).

Definition set_status_error (v : pyval) (s : state) : state :=
  mkState (slave_id s) (_connected s) (status_connected s) v (positions s)
    (calls s) (trace s).

Definition set_positions (p : Z * Z) (s : state) : state :=
  mkState (slave_id s) (_connected s) (status_connected s) (status_error s) p
    (calls s) (trace s).

Definition emit (e : event) (s : state) : state :=
  mkState (slave_id s) (_connected s) (status_connected s) (status_error s)
    (positions s) (calls s) (trace s ++ [e]).

Definition tick (s : state) : state :=
  mkState (slave_id s) (_connected s) (status_connected s) (status_error s)
    (positions s) (S (calls s)) (trace s).

Definition M (A : Type) : Type := state -> outcome A * state.

Definition ret {A : Type} (a : A) : M A := fun s => (Ret a, s).

Definition raise {A : Type} (e : exn) : M A := fun s => (Raise e, s).

Definition bind {A B : Type} (m : M A) (k : A -> M B) : M B :=
  fun s =>
    match m s with
    | (Ret a, s') => k a s'
    | (Raise e, s') => (Raise e, s')
    end.

Definition lift {A : Type} (o : outcome A) : M A := fun s => (o, s).

Definition gets {A : Type} (f : state -> A) : M A := fun s => (Ret (f s), s).

Definition modify (f : state -> state) : M unit := fun s => (Ret tt, f s).

(** [try: m except Exception: h] where the handler returns a value. *)
Definition try_except {A : Type} (m : M A) (h : exn -> M A) : M A :=
  fun s =>
    match m s with
    | (Ret a, s') => (Ret a, s')
    | (Raise e, s') => h e s'
    end.

Declare Scope monad_scope.
Delimit Scope monad_scope with monad.
Notation "x <- m ;; k" := (bind m (fun x => k))
  (at level 61, m at next level, right associativity) : monad_scope.
Notation "m ;;; k" := (bind m (fun _ => k))
  (at level 61, right associativity) : monad_scope.
Local Open Scope monad_scope.

(** The events that a run added to the trace. *)
Definition events_since (s s' : state) : list event :=
  skipn (List.length (trace s)) (trace s').

(** ** [MQTTService.publish] on a started service:
    [mqtt.publish(topic, json.dumps(message))].  The trace keeps the
    document before serialisation. *)
Definition publish (topic : string) (message : pyval) : M unit :=
  modify (emit (Publish topic message)).

(** ** [modbus_connection.py] *)

Module ModbusConnection.
Section Link.
Variable env : environment.

(** One call on the serial client. *)
Definition client (r : request) : M reply :=
  fun s =>
    let s' := tick (emit (Wire r) s) in
    match env (calls s) r with
    | Raises => (Raise TransportExc, s')
    | a => (Ret a, s')
    end.

Definition connect : M bool :=
  try_except
    (c <- gets _connected ;;
     if c then ret true
     else
       opened <- try_except (_ <- client SerialOpen ;; ret true)
                   (fun _ => ret false) ;;
       if negb opened then ret false
       else
         try_except
           (r <- client ClientConnect ;;
            match r with
            | Ok _ => modify (set_connected true) ;;; ret true
            | _ => ret false
            end)
           (fun _ => ret false))
    (fun _ => modify (set_connected false) ;;; ret false).

Definition disconnect : M bool :=
  c <- gets _connected ;;
  if negb c then ret true
  else
    try_except
      (_ <- client ClientClose ;;
       modify (set_connected false) ;;; ret true)
      (fun _ => ret false).

Definition is_connected : M bool :=
  try_except
    (c <- gets _connected ;;
     if negb c then ret false
     else
       result <- client (ReadHoldingRegisters 0 1 1) ;;
       match result with
       | Ok _ => ret true
       | _ => modify (set_connected false) ;;; ret false
       end)
    (fun _ => modify (set_connected false) ;;; ret false).

(** [read_registers(address, count, slave_id)]: [None] is Python's
    [None]. *)
Definition read_registers (address count slave : Z) : M (option (list Z)) :=
  modify (emit (Link (ReadHoldingRegisters address count slave))) ;;;
  c <- gets _connected ;;
  if negb c then ret None
  else
    result <- client (ReadHoldingRegisters address count slave) ;;
    match result with
    | Ok regs => ret (Some regs)
    | _ => ret None
    end.

(** [write_registers(address, values, slave_id)] *)
Definition write_registers (address : Z) (values : list pyval) (slave : Z)
  : M bool :=
  modify (emit (Link (WriteRegisters address values slave))) ;;;
  c <- gets _connected ;;
  if negb c then ret false
  else
    result <- client (WriteRegisters address values slave) ;;
    match result with
    | Ok _ => ret true
    | _ => ret false
    end.

(** [write_register(address, value, slave_id)]: returns
    [result.isError()]. *)
Definition write_register (address value slave : Z) : M bool :=
  modify (emit (Link (WriteRegister address value slave))) ;;;
  c <- gets _connected ;;
  if negb c then ret false
  else
    result <- client (WriteRegister address value slave) ;;
    match result with
    | Ok _ => ret false
    | _ => ret true
    end.

(** [ModbusConnection] defines no method [write_multiple_registers]:
    looking the attribute up raises [AttributeError] before any argument
    is used. *)
Definition write_multiple_registers (address : Z) (values : list pyval)
  (slave : Z) : M bool :=
  raise AttributeError.

End Link.
End ModbusConnection.

(** ** [stepper_mqtt_controller.py]: the nested class [Axis] *)

(** [f"stepper/stepper{slave_id}/axis/{axis_id}/{leaf}"] *)
Definition axis_topic (sid axis_id : Z) (leaf : string) : string :=
  ("stepper/stepper" ++ Py.str_int sid ++ "/axis/" ++ Py.str_int axis_id
     ++ "/" ++ leaf)%string.

Module Axis.
Section Methods.
Variable env : environment.
Variable axis_id : Z.

Let write_registers := ModbusConnection.write_registers env.
Let write_register := ModbusConnection.write_register env.
Let write_multiple_registers := ModbusConnection.write_multiple_registers.

Definition _move_absolute (params : pyval) : M bool :=
  target <- lift (Py.get params "position" (VInt 0)) ;;
  target_low <- lift (Py.and_ target 0xFFFF) ;;
  shifted <- lift (Py.rshift target 16) ;;
  target_high <- lift (Py.and_ shifted 0xFFFF) ;;
  speed <- lift (Py.get params "speed" (VInt 1000)) ;;
  accel <- lift (Py.get params "acceleration" (VInt 1000)) ;;
  decel <- lift (Py.get params "deceleration" (VInt 1000)) ;;
  sid <- gets slave_id ;;
  result <- write_registers 0
              [VInt 0x0102; VInt axis_id; target_low; target_high;
               VInt 0; VInt 0; speed; accel; decel]
              sid ;;
  publish (axis_topic sid axis_id "ack")
    (VDict [("command", VStr "move_absolute");
            ("success", VBool result);
            ("params", VDict [("target", target); ("speed", speed);
                              ("accel", accel); ("decel", decel)])]) ;;;
  ret result.

Definition _move_relative (params : pyval) : M bool :=
  distance <- lift (Py.get params "distance" (VInt 0)) ;;
  speed <- lift (Py.get params "speed" (VInt 1000)) ;;
  accel <- lift (Py.get params "acceleration" (VInt 1000)) ;;
  decel <- lift (Py.get params "deceleration" (VInt 1000)) ;;
  sid <- gets slave_id ;;
  result <- write_multiple_registers 0
              [VInt 3; distance; speed; accel; decel]
              sid ;;
  publish (axis_topic sid axis_id "ack")
    (VDict [("command", VStr "move_relative");
            ("success", VBool result);
            ("params", VDict [("distance", distance); ("speed", speed);
                              ("accel", accel); ("decel", decel)])]) ;;;
  ret result.

(** The direction and the speed are read for the log line only: "speed
    and direction are saved on the device". *)
Definition _home_axis (params : pyval) : M bool :=
  direction <- lift (Py.get params "direction" (VInt 1)) ;;
  speed <- lift (Py.get params "speed" (VInt 500)) ;;
  sid <- gets slave_id ;;
  result <- write_register sid 0 1 ;;
  publish (axis_topic sid axis_id "ack")
    (VDict [("command", VStr "home"); ("success", VBool result)]) ;;;
  ret result.

Definition _stop_axis : M bool :=
  sid <- gets slave_id ;;
  result <- write_register sid 0 0 ;;
  publish (axis_topic sid axis_id "ack")
    (VDict [("command", VStr "stop"); ("success", VBool result)]) ;;;
  ret result.

Definition _enable_axis : M bool :=
  sid <- gets slave_id ;;
  result <- write_register sid 4 1 ;;
  publish (axis_topic sid axis_id "ack")
    (VDict [("command", VStr "enable"); ("success", VBool result)]) ;;;
  ret result.

Definition _disable_axis : M bool :=
  sid <- gets slave_id ;;
  result <- write_register sid 4 0 ;;
  publish (axis_topic sid axis_id "ack")
    (VDict [("command", VStr "disable"); ("success", VBool result)]) ;;;
  ret result.

Definition _reset_axis : M bool :=
  sid <- gets slave_id ;;
  result <- write_register sid 5 1 ;;
  publish (axis_topic sid axis_id "ack")
    (VDict [("command", VStr "reset"); ("success", VBool result)]) ;;;
  ret result.

Definition _enable_servo_mode (params : pyval) : M bool :=
  max_speed <- lift (Py.get params "max_speed" (VInt 5000)) ;;
  accel <- lift (Py.get params "acceleration" (VInt 1000)) ;;
  sid <- gets slave_id ;;
  result <- write_registers 0
              [VInt 0x0201; VInt axis_id; max_speed; accel] sid ;;
  publish (axis_topic sid axis_id "ack")
    (VDict [("command", VStr "enable_servo_mode");
            ("success", VBool result);
            ("params", VDict [("max_speed", max_speed);
                              ("acceleration", accel)])]) ;;;
  ret result.

Definition _disable_servo_mode (params : pyval) : M bool :=
  sid <- gets slave_id ;;
  result <- write_registers 0 [VInt 0x0202; VInt axis_id] sid ;;
  publish (axis_topic sid axis_id "ack")
    (VDict [("command", VStr "disable_servo_mode");
            ("success", VBool result)]) ;;;
  ret result.

(** The conversion at the head of [_set_servo_speed]: [Some v] is the
    value that goes on, [None] is the [return False] of the
    [except ValueError] branch.  [isinstance(x, int)] holds for a bool;
    a value that is neither int, float nor str is left as it is. *)
Definition convert_speed (speed : pyval) : outcome (option pyval) :=
  match speed with
  | VInt _ | VBool _ => Ret (Some speed)
  | VFloat f =>
      match Py.int_float f with
      | Ret z => Ret (Some (VInt z))
      | Raise e => Raise e
      end
  | VStr s =>
      match Py.float_str s with
      | Raise ValueError => Ret None
      | Raise e => Raise e
      | Ret f =>
          match Py.int_float f with
          | Ret z => Ret (Some (VInt z))
          | Raise ValueError => Ret None
          | Raise e => Raise e
          end
      end
  | _ => Ret (Some speed)
  end.

Definition _set_servo_speed (params : pyval) : M bool :=
  speed0 <- lift (Py.get params "speed" (VInt 0)) ;;
  converted <- lift (convert_speed speed0) ;;
  match converted with
  | None => ret false
  | Some speed =>
      sid <- gets slave_id ;;
      result <- write_registers 0
                  [VInt 0x0203; VInt axis_id; speed] sid ;;
      publish (axis_topic sid axis_id "ack")
        (VDict [("command", VStr "set_servo_speed");
                ("success", VBool result);
                ("params", VDict [("speed", speed)])]) ;;;
      ret result
  end.

End Methods.
End Axis.

(** ** [stepper_mqtt_controller.py]: the class [StepperMQTTController] *)

Module StepperMQTTController.
Section Controller.
Variable env : environment.

Let read_registers := ModbusConnection.read_registers env.

(** *** Command delegation methods: [self.axis0] is [Axis(self, 0)] and
    [self.axis1] is [Axis(self, 1)]. *)

Definition _move_absolute (axis_id : Z) (params : pyval) : M bool :=
  if axis_id =? 0 then Axis._move_absolute env 0 params
  else if axis_id =? 1 then Axis._move_absolute env 1 params
  else ret false.

Definition _move_relative (axis_id : Z) (params : pyval) : M bool :=
  if axis_id =? 0 then Axis._move_relative 0 params
  else if axis_id =? 1 then Axis._move_relative 1 params
  else ret false.

Definition _home_axis (axis_id : Z) (params : pyval) : M bool :=
  if axis_id =? 0 then Axis._home_axis env 0 params
  else if axis_id =? 1 then Axis._home_axis env 1 params
  else ret false.

Definition _stop_axis (axis_id : Z) : M bool :=
  if axis_id =? 0 then Axis._stop_axis env 0
  else if axis_id =? 1 then Axis._stop_axis env 1
  else ret false.

Definition _enable_axis (axis_id : Z) : M bool :=
  if axis_id =? 0 then Axis._enable_axis env 0
  else if axis_id =? 1 then Axis._enable_axis env 1
  else ret false.

Definition _disable_axis (axis_id : Z) : M bool :=
  if axis_id =? 0 then Axis._disable_axis env 0
  else if axis_id =? 1 then Axis._disable_axis env 1
  else ret false.

Definition _reset_axis (axis_id : Z) : M bool :=
  if axis_id =? 0 then Axis._reset_axis env 0
  else if axis_id =? 1 then Axis._reset_axis env 1
  else ret false.

(** [axis = self.axis0 if axis_id == 0 else self.axis1] *)
Definition _enable_servo_mode (axis_id : Z) (params : pyval) : M bool :=
  let params := match params with VNone => VDict [] | _ => params end in
  Axis._enable_servo_mode env (if axis_id =? 0 then 0 else 1) params.

Definition _disable_servo_mode (axis_id : Z) : M bool :=
  Axis._disable_servo_mode env (if axis_id =? 0 then 0 else 1) (VDict []).

Definition _set_servo_speed (axis_id : Z) (params : pyval) : M bool :=
  if negb (Py.truthy params) then ret false
  else Axis._set_servo_speed env (if axis_id =? 0 then 0 else 1) params.

(** *** [_on_command] *)

(** The integer that [_on_command] takes from the second topic segment:
    every occurrence of ["stepper"] is removed, and a rest that [int]
    rejects counts as 0. *)
Definition stepper_id_of (segment : string) : Z :=
  match Py.int_str (Py.replace segment "stepper" EmptyString) with
  | Ret z => z
  | Raise _ => 0
  end.

Definition device_command (command : string) : M unit :=
  if String.eqb command "enable" then
    _enable_axis 0 ;;; _enable_axis 1 ;;; ret tt
  else if String.eqb command "disable" then
    _disable_axis 0 ;;; _disable_axis 1 ;;; ret tt
  else if String.eqb command "reset" then
    _reset_axis 0 ;;; _reset_axis 1 ;;; ret tt
  else ret tt.

Definition axis_command (command : string) (axis_id : Z) (payload : pyval)
  : M unit :=
  if String.eqb command "move_absolute" then
    _move_absolute axis_id payload ;;; ret tt
  else if String.eqb command "move_relative" then
    _move_relative axis_id payload ;;; ret tt
  else if String.eqb command "home" then
    _home_axis axis_id payload ;;; ret tt
  else if String.eqb command "stop" then _stop_axis axis_id ;;; ret tt
  else if String.eqb command "enable" then _enable_axis axis_id ;;; ret tt
  else if String.eqb command "disable" then _disable_axis axis_id ;;; ret tt
  else if String.eqb command "reset" then _reset_axis axis_id ;;; ret tt
  else if String.eqb command "enable_servo" then
    _enable_servo_mode axis_id payload ;;; ret tt
  else if String.eqb command "disable_servo" then
    _disable_servo_mode axis_id ;;; ret tt
  else if String.eqb command "servo_speed" then
    _set_servo_speed axis_id payload ;;; ret tt
  else ret tt.

(** The body of the [try] block; [payload_str] is the decoded payload. *)
Definition on_command_body (topic payload_str : string) : M unit :=
  let topic_parts := Py.split topic "/" in
  let n := Z.of_nat (List.length topic_parts) in
  if n <? 3 then ret tt
  else
    let stepper_id := stepper_id_of (nth 1 topic_parts EmptyString) in
    sid <- gets slave_id ;;
    if negb (stepper_id =? sid) then ret tt
    else
      match Json.loads payload_str with
      | None => ret tt
      | Some payload =>
          if n =? 3 then device_command (nth 2 topic_parts EmptyString)
          else if (5 <=? n) && String.eqb (nth 2 topic_parts EmptyString) "axis" then
            match Py.int_str (nth 3 topic_parts EmptyString) with
            | Raise _ => ret tt
            | Ret axis_id =>
                let command :=
                  if (6 <=? n) && String.eqb (nth 4 topic_parts EmptyString) "move"
                  then ("move_" ++ nth 5 topic_parts EmptyString)%string
                  else nth 4 topic_parts EmptyString in
                axis_command command axis_id payload
            end
          else ret tt
      end.

(** [_on_command]: whatever the body raises is logged by the
    [except Exception] clause and the callback returns. *)
Definition _on_command (topic payload_str : string) (s : state) : state :=
  snd (on_command_body topic payload_str s).

(** *** [_poll_status] *)

Definition STATUS_REG : Z := 0x0D.
Definition AXIS0_POSITION_REG : Z := 0x11.
Definition AXIS1_POSITION_REG : Z := 0x13.

Definition flag (status_word mask : Z) : pyval :=
  VBool (negb (Z.land status_word mask =? 0)).

(** Status bit masks for axis 0 (lower byte) and axis 1 (upper byte). *)
Definition AXIS0_LIMIT_NEG : Z := 0x01.
Definition AXIS0_LIMIT_POS : Z := 0x02.
Definition AXIS0_BUSY : Z := 0x04.
Definition AXIS0_DONE : Z := 0x08.
Definition AXIS0_HOMED : Z := 0x10.
Definition AXIS0_ERROR : Z := 0x20.
Definition AXIS1_LIMIT_NEG : Z := 0x0100.
Definition AXIS1_LIMIT_POS : Z := 0x0200.
Definition AXIS1_BUSY : Z := 0x0400.
Definition AXIS1_DONE : Z := 0x0800.
Definition AXIS1_HOMED : Z := 0x1000.
Definition AXIS1_ERROR : Z := 0x2000.

Definition axis0_status (status_word : Z) : pyval :=
  VDict [("limit_neg", flag status_word AXIS0_LIMIT_NEG);
         ("limit_pos", flag status_word AXIS0_LIMIT_POS);
         ("is_moving", flag status_word AXIS0_BUSY);
         ("is_done", flag status_word AXIS0_DONE);
         ("is_homed", flag status_word AXIS0_HOMED);
         ("has_error", flag status_word AXIS0_ERROR);
         ("is_servo_mode", flag status_word 0x40)].

Definition axis1_status (status_word : Z) : pyval :=
  VDict [("limit_neg", flag status_word AXIS1_LIMIT_NEG);
         ("limit_pos", flag status_word AXIS1_LIMIT_POS);
         ("is_moving", flag status_word AXIS1_BUSY);
         ("is_done", flag status_word AXIS1_DONE);
         ("is_homed", flag status_word AXIS1_HOMED);
         ("has_error", flag status_word AXIS1_ERROR);
         ("is_servo_mode", flag status_word 0x4000)].

Definition default_status_dict : pyval :=
  VDict [("limit_neg", VBool false); ("limit_pos", VBool false);
         ("is_moving", VBool false); ("is_done", VBool false);
         ("is_homed", VBool false); ("has_error", VBool false);
         ("is_servo_mode", VBool false); ("is_stalled", VBool false);
         ("is_enabled", VBool false)].

(** [(high << 16) | low] on Python's unbounded integers. *)
Definition combine (low high : Z) : Z := Z.lor (Z.shiftl high 16) low.

(** The fallback of the position read, one axis at a time; it is taken
    only when the two position registers are not consecutive. *)
Definition read_position_of (axis : Z) : M unit :=
  let position_reg :=
    if axis =? 0 then AXIS0_POSITION_REG else AXIS1_POSITION_REG in
  sid <- gets slave_id ;;
  position_regs <- read_registers 2 position_reg sid ;;
  match position_regs with
  | Some (r0 :: r1 :: _) =>
      p <- gets positions ;;
      modify (set_positions
                (if axis =? 0 then (combine r0 r1, snd p)
                 else (fst p, combine r0 r1)))
  | _ => ret tt
  end.

(** The body of the [try] block of one iteration of the loop. *)
Definition poll_body : M unit :=
  sid <- gets slave_id ;;
  status_values <- read_registers 1 STATUS_REG sid ;;
  dicts <-
    match status_values with
    | Some (status_word :: _) =>
        let axis0_status_dict := axis0_status status_word in
        let axis1_status_dict := axis1_status status_word in
        modify (set_status_connected true) ;;;
        modify (set_status_error
                  (if negb (Z.land status_word AXIS0_ERROR =? 0)
                      || negb (Z.land status_word AXIS1_ERROR =? 0)
                   then VStr "Error detected" else VNone)) ;;;
        ret (axis0_status_dict, axis1_status_dict)
    | _ => ret (default_status_dict, default_status_dict)
    end ;;
  (if AXIS0_POSITION_REG + 2 =? AXIS1_POSITION_REG then
     position_regs <- read_registers AXIS0_POSITION_REG 4 sid ;;
     match position_regs with
     | Some [r0; r1; r2; r3] =>
         modify (set_positions (combine r0 r1, combine r2 r3))
     | _ => ret tt
     end
   else
     read_position_of 0 ;;; read_position_of 1) ;;;
  publish (axis_topic sid 0 "status") (fst dicts) ;;;
  publish (axis_topic sid 1 "status") (snd dicts) ;;;
  p <- gets positions ;;
  publish (axis_topic sid 0 "position") (VDict [("position", VInt (fst p))]) ;;;
  publish (axis_topic sid 1 "position") (VDict [("position", VInt (snd p))]).

(** The [except Exception] clause of the loop. *)
Definition poll_handler : M unit :=
  modify (set_status_connected false) ;;;
  c <- ModbusConnection.is_connected env ;;
  if negb c then
    r <- ModbusConnection.connect env ;;
    modify (set_status_connected r)
  else ret tt.

(** One iteration of [while self.running:]. *)
Definition poll_tick (s : state) : state :=
  snd (try_except poll_body (fun _ => poll_handler) s).

(** [n] iterations of the loop. *)
Fixpoint poll_loop (n : nat) (s : state) : state :=
  match n with
  | O => s
  | S n' => poll_loop n' (poll_tick s)
  end.

End Controller.
End StepperMQTTController.

(** ** Observations on a trace *)

Definition is_write (r : request) : bool :=
  match r with
  | WriteRegisters _ _ _ | WriteRegister _ _ _ => true
  | _ => false
  end.

(** The register writes requested from [ModbusConnection], in order. *)
Fixpoint link_writes (evs : list event) : list request :=
  match evs with
  | [] => []
  | Link r :: t => if is_write r then r :: link_writes t else link_writes t
  | _ :: t => link_writes t
  end.

(** The register writes that reached the pymodbus client, in order. *)
Fixpoint wire_writes (evs : list event) : list request :=
  match evs with
  | [] => []
  | Wire r :: t => if is_write r then r :: wire_writes t else wire_writes t
  | _ :: t => wire_writes t
  end.

(** The published messages, in order. *)
Fixpoint published (evs : list event) : list (string * pyval) :=
  match evs with
  | [] => []
  | Publish t m :: r => (t, m) :: published r
  | _ :: r => published r
  end.

(** The calls made to open the serial port or to connect the client. *)
Fixpoint connect_attempts (evs : list event) : list request :=
  match evs with
  | [] => []
  | Wire SerialOpen :: t => SerialOpen :: connect_attempts t
  | Wire ClientConnect :: t => ClientConnect :: connect_attempts t
  | _ :: t => connect_attempts t
  end.

(** The words that a write puts into registers. *)
Definition written (r : request) : list pyval :=
  match r with
  | WriteRegisters _ values _ => values
  | WriteRegister _ value _ => [VInt value]
  | _ => []
  end.

(** The register address of a write. *)
Definition address_of (r : request) : option Z :=
  match r with
  | WriteRegisters a _ _ | WriteRegister a _ _ => Some a
  | _ => None
  end.

(** ** Sample environments and states for the examples *)

(** A device that answers every request without error. *)
Definition healthy : environment := fun _ _ => Ok [].

(** A device whose every answer is an error response. *)
Definition failing : environment := fun _ _ => Error.

(** A serial side on which every call raises. *)
Definition broken : environment := fun _ _ => Raises.

(** A fresh controller for device [sid] whose link is connected or not. *)
Definition fresh (sid : Z) (connected : bool) : state :=
  mkState sid connected connected VNone (0, 0) 0 [].


(** ** Named inputs of the properties *)

(** The payload [{"position":1000,"speed":500}]. *)
Definition absolute_move_payload : string :=
  Json.text "{'position':1000,'speed':500}".

(** The words of the absolute move of that payload on axis [a]. *)
Definition absolute_move_words (a : Z) : list pyval :=
  [VInt 0x0102; VInt a; VInt 1000; VInt 0; VInt 0; VInt 0;
   VInt 500; VInt 1000; VInt 1000].

(** The acknowledgment document [{"command": cmd, "success": b}]. *)
Definition plain_ack (cmd : string) (b : bool) : pyval :=
  VDict [("command", VStr cmd); ("success", VBool b)].

(** [params.get(key, default)] on the items of a dict. *)
Definition item (d : list (string * pyval)) (key : string) (default : Z)
  : pyval :=
  match Py.lookup d key with
  | Some v => v
  | None => VInt default
  end.




(** The call that the method of a single-word action makes on
    [ModbusConnection], with its arguments in the order of the call. *)
Definition single_word_call (sid : Z) (command : string) : option request :=
  if String.eqb command "stop" then Some (WriteRegister sid 0 0)
  else if String.eqb command "enable" then Some (WriteRegister sid 4 1)
  else if String.eqb command "disable" then Some (WriteRegister sid 4 0)
  else if String.eqb command "reset" then Some (WriteRegister sid 5 1)
  else None.



(** A device that answers the position read (four registers from
    [AXIS0_POSITION_REG]) with [regs] and every other request with the
    single word 0. *)
Definition device_with_positions (regs : list Z) : environment :=
  fun _ r =>
    match r with
    | ReadHoldingRegisters address count _ =>
        if (address =? StepperMQTTController.AXIS0_POSITION_REG)
           && (count =? 4)
        then Ok regs else Ok [0]
    | _ => Ok [0]
    end.


(** ** Further observations on a trace *)

(** The register reads requested from [ModbusConnection], in order. *)
Fixpoint link_reads (evs : list event) : list request :=
  match evs with
  | [] => []
  | Link (ReadHoldingRegisters a c sl) :: t =>
      ReadHoldingRegisters a c sl :: link_reads t
  | _ :: t => link_reads t
  end.

(** Every call made on the serial side, in order. *)
Fixpoint wire_calls (evs : list event) : list request :=
  match evs with
  | [] => []
  | Wire r :: t => r :: wire_calls t
  | _ :: t => wire_calls t
  end.

(** The status document whose seven flags are the bits [b], [b + 1], ...,
    [b + 6] of the status word. *)
Definition status_bits (status_word b : Z) : pyval :=
  VDict [("limit_neg", VBool (Z.testbit status_word b));
         ("limit_pos", VBool (Z.testbit status_word (b + 1)));
         ("is_moving", VBool (Z.testbit status_word (b + 2)));
         ("is_done", VBool (Z.testbit status_word (b + 3)));
         ("is_homed", VBool (Z.testbit status_word (b + 4)));
         ("has_error", VBool (Z.testbit status_word (b + 5)));
         ("is_servo_mode", VBool (Z.testbit status_word (b + 6)))].

(** The four topics on which a tick of the poller publishes, in order. *)
Definition tick_topics (sid : Z) : list string :=
  [axis_topic sid 0 "status"; axis_topic sid 1 "status";
   axis_topic sid 0 "position"; axis_topic sid 1 "position"].

(** ** What a command may do *)

(** The fields that a command leaves alone. *)
Definition same_device (s s' : state) : Prop :=
  slave_id s' = slave_id s /\ _connected s' = _connected s /\
  status_connected s' = status_connected s /\
  status_error s' = status_error s /\ positions s' = positions s.

(** What a command may leave in the trace of a controller for device
    [sid] whose link is [connected]: a register write requested from the
    link, a register write on the wire (on a connected link only), or an
    acknowledgment on the ack topic of axis 0 or axis 1 of that device,
    which reports failure when the link is not connected. *)
Definition command_event (sid : Z) (connected : bool) (e : event) : Prop :=
  match e with
  | Link r => is_write r = true
  | Wire r => is_write r = true /\ connected = true
  | Publish topic message =>
      (topic = axis_topic sid 0 "ack" \/ topic = axis_topic sid 1 "ack") /\
      exists (cmd : string) (b : bool) (rest : list (string * pyval)),
        message = VDict (("command", VStr cmd) :: ("success", VBool b) :: rest)
        /\ (connected = false -> b = false)
  end.

(** The outcome [r] of a run from [s] only appended events of commands
    and left the device fields alone. *)
Definition good {A : Type} (s : state) (r : outcome A * state) : Prop :=
  exists l : list event,
    trace (snd r) = trace s ++ l /\
    same_device s (snd r) /\
    (calls s <= calls (snd r))%nat /\
    Forall (command_event (slave_id s) (_connected s)) l /\
    (List.length (published l) <= List.length (link_writes l))%nat.

Definition orderly {A : Type} (m : M A) : Prop :=
  forall s : state, good s (m s).

(** ** Acknowledgments and device-level commands *)

(** The acknowledgments that follow the write [w] of axis [a]: one that
    tells whether the device accepted the write, or none when the client
    raised. *)
Definition ack_after (env : environment) (a : Z) (s : state) (w : request)
  (ack : bool -> pyval) : list (string * pyval) :=
  match (if _connected s then env (calls s) w else Error) with
  | Ok _ => [(axis_topic (slave_id s) a "ack", ack true)]
  | Error => [(axis_topic (slave_id s) a "ack", ack false)]
  | Raises => []
  end.

(** The writes of a device-level command whose write is [w], on a
    connected link: that of axis 0 alone when it raises. *)
Definition device_writes (env : environment) (s : state) (w : request)
  : list request :=
  match env (calls s) w with
  | Raises => [w]
  | _ => [w; w]
  end.

(** The topics of the acknowledgments of a device-level command whose
    write is [w], on a connected link: none when the write of axis 0
    raises; that of axis 0 alone when the write of axis 1 raises. *)
Definition device_acks (env : environment) (s : state) (w : request)
  : list string :=
  match env (calls s) w with
  | Raises => []
  | _ =>
      axis_topic (slave_id s) 0 "ack" ::
      match env (S (calls s)) w with
      | Raises => []
      | _ => [axis_topic (slave_id s) 1 "ack"]
      end
  end.

(** ** Life cycle: [start] and [stop]

    The controller object around the state of the sections above: the
    flag [running], whether a poll thread was created, whether
    [MQTTService.client] exists and is connected to the broker, and the
    topics subscribed so far.  [start] and [stop] are modelled as the
    calling thread runs them; the iterations of the poll thread (modelled
    by [poll_tick]) are not part of them. *)

Record bridge : Type := mkBridge {
  core : state;
  running : bool;               (* self.running *)
  poll_thread : bool;           (* self.poll_thread is not None *)
  mqtt_client : bool;           (* MQTTService.client is not None *)
  mqtt_connected : bool;        (* the paho client is connected *)
  subscriptions : list string   (* topics subscribed, oldest first *)
}.

(** What a call of [start] gives back: a returned boolean, or the
    exception of the MQTT client when the broker cannot be reached, which
    [start] does not catch. *)
Inductive start_result : Type :=
| Returned (ok : bool)
| BrokerUnreachable.

(** [MQTTService.subscribe(topic, callback)] *)
Definition mqtt_subscribe (topic : string) (b : bridge) : bridge :=
  if mqtt_client b
  then mkBridge (core b) (running b) (poll_thread b) (mqtt_client b)
         (mqtt_connected b) (subscriptions b ++ [topic])
  else b.

(** The topics of [_subscribe_to_commands], in the order of the calls. *)
Definition command_topics : list string :=
  ["stepper/+/axis/+/move/absolute"; "stepper/+/axis/+/move/relative";
   "stepper/+/axis/+/home"; "stepper/+/axis/+/stop";
   "stepper/+/axis/+/enable"; "stepper/+/axis/+/disable";
   "stepper/+/axis/+/reset";
   "stepper/+/axis/+/enable_servo"; "stepper/+/axis/+/disable_servo";
   "stepper/+/axis/+/servo_speed";
   "stepper/+/enable"; "stepper/+/disable"; "stepper/+/reset"].

Definition _subscribe_to_commands (b : bridge) : bridge :=
  fold_left (fun b topic => mqtt_subscribe topic b) command_topics b.

(** [StepperMQTTController.start]; [broker_up] tells whether the MQTT
    client can connect to the broker. *)
Definition start (env : environment) (broker_up : bool) (b : bridge)
  : start_result * bridge :=
  (* self.mqtt.start(): the client is created, then connected *)
  if negb broker_up then
    (BrokerUnreachable,
     mkBridge (core b) (running b) (poll_thread b) true false
       (subscriptions b))
  else
    let '(r, s1) := ModbusConnection.connect env (core b) in
    let connected := match r with Ret c => c | Raise _ => false end in
    let s2 := set_status_connected connected s1 in
    let b1 := mkBridge s2 (running b) (poll_thread b) true true
                (subscriptions b) in
    if negb connected then (Returned false, b1)
    else
      let b2 := _subscribe_to_commands b1 in
      (Returned true,
       mkBridge (core b2) true true (mqtt_client b2) (mqtt_connected b2)
         (subscriptions b2)).

(** [StepperMQTTController.stop] *)
Definition stop (env : environment) (b : bridge) : bridge :=
  let '(_, s1) := ModbusConnection.disconnect env (core b) in
  mkBridge s1 false (poll_thread b) (mqtt_client b)
    (if mqtt_client b then false else mqtt_connected b) (subscriptions b).


(** ** Decimal numerals *)



(** * Properties *)

(** ** Reading a trace *)

Lemma skipn_own_app {A : Type} (t l : list A) :
  skipn (List.length t) (t ++ l) = l.
Proof. rewrite skipn_app, skipn_all, Nat.sub_diag. reflexivity. Qed.

Lemma events_since_app (s s' : state) (l : list event) :
  trace s' = trace s ++ l -> events_since s s' = l.
Proof. intros H. unfold events_since. rewrite H. apply skipn_own_app. Qed.


Ltac unfold_link :=
  unfold ModbusConnection.write_register, ModbusConnection.write_registers,
    ModbusConnection.write_multiple_registers,
    ModbusConnection.read_registers, ModbusConnection.client,
    bind, gets, publish, modify, ret, lift, raise, try_except.

(** Case analysis on [_connected]. *)
Ltac split_state s :=
  let c := fresh "c" in
  destruct s as [?sid c ?sc ?se ?p ?n ?t]; destruct c.

Ltac close_trace :=
  simpl; rewrite <- ?app_assoc, ?skipn_own_app; simpl; try reflexivity.

(** Case analysis on the reply of the serial client. *)
Ltac by_reply env :=
  simpl;
  try match goal with
      | |- context [env ?n ?r] => destruct (env n r)
      end;
  close_trace.


(** ** Single-register actions: stop, enable, disable, reset, home *)

Section SingleRegister.
Variable env : environment.
Variable a : Z.

Ltac writes_of m :=
  intros s; unfold events_since, m; unfold_link;
  split_state s; split; by_reply env.

Lemma stop_writes : forall s : state,
  let evs := events_since s (snd (Axis._stop_axis env a s)) in
  link_writes evs = [WriteRegister (slave_id s) 0 0] /\
  wire_writes evs =
    if _connected s then [WriteRegister (slave_id s) 0 0] else [].
Proof. writes_of Axis._stop_axis. Qed.

Lemma enable_writes : forall s : state,
  let evs := events_since s (snd (Axis._enable_axis env a s)) in
  link_writes evs = [WriteRegister (slave_id s) 4 1] /\
  wire_writes evs =
    if _connected s then [WriteRegister (slave_id s) 4 1] else [].
Proof. writes_of Axis._enable_axis. Qed.

Lemma disable_writes : forall s : state,
  let evs := events_since s (snd (Axis._disable_axis env a s)) in
  link_writes evs = [WriteRegister (slave_id s) 4 0] /\
  wire_writes evs =
    if _connected s then [WriteRegister (slave_id s) 4 0] else [].
Proof. writes_of Axis._disable_axis. Qed.

Lemma reset_writes : forall s : state,
  let evs := events_since s (snd (Axis._reset_axis env a s)) in
  link_writes evs = [WriteRegister (slave_id s) 5 1] /\
  wire_writes evs =
    if _connected s then [WriteRegister (slave_id s) 5 1] else [].
Proof. writes_of Axis._reset_axis. Qed.

Lemma home_writes : forall (d : list (string * pyval)) (s : state),
  let evs := events_since s (snd (Axis._home_axis env a (VDict d) s)) in
  link_writes evs = [WriteRegister (slave_id s) 0 1] /\
  wire_writes evs =
    if _connected s then [WriteRegister (slave_id s) 0 1] else [].
Proof. intros d. writes_of Axis._home_axis. Qed.

(** On a connected link the acknowledgment of [stop] carries
    [result.isError()]: [false] after a good response, [true] after an
    error response. *)
Lemma stop_ack : forall s : state,
  _connected s = true ->
  published (events_since s (snd (Axis._stop_axis env a s))) =
    match env (calls s) (WriteRegister (slave_id s) 0 0) with
    | Ok _ => [(axis_topic (slave_id s) a "ack", plain_ack "stop" false)]
    | Error => [(axis_topic (slave_id s) a "ack", plain_ack "stop" true)]
    | Raises => []
    end.
Proof.
  intros s; unfold events_since, Axis._stop_axis; unfold_link.
  split_state s; intros Hc; try discriminate Hc; by_reply env.
Qed.

End SingleRegister.

(** C1 (the code departs from the claim).  Device 1, link connected,
    message [stepper/1/axis/0/stop] with payload [{}].  When the device
    accepts the write, the acknowledgment says [success: false]; when the
    device answers with an error, it says [success: true]; a relative move
    on the same link publishes no acknowledgment at all and no write
    reaches the wire. *)
Theorem C1_single_register_ack_inverted :
  let ok := StepperMQTTController._on_command healthy
              "stepper/1/axis/0/stop" "{}" (fresh 1 true) in
  let ko := StepperMQTTController._on_command failing
              "stepper/1/axis/0/stop" "{}" (fresh 1 true) in
  let rel := StepperMQTTController._on_command healthy
               "stepper/1/axis/0/move/relative" "{}" (fresh 1 true) in
  wire_writes (trace ok) = [WriteRegister 1 0 0] /\
  published (trace ok) =
    [("stepper/stepper1/axis/0/ack", plain_ack "stop" false)] /\
  wire_writes (trace ko) = [WriteRegister 1 0 0] /\
  published (trace ko) =
    [("stepper/stepper1/axis/0/ack", plain_ack "stop" true)] /\
  trace rel = [].
Proof. vm_compute. repeat split; reflexivity. Qed.

(** C2 (the code departs from the claim).  Each single-word action calls
    [write_register(slave_id, x, y)] on a method whose parameters are
    [(address, value, slave_id)]: the register address of the write is
    the configured device id, the written value is the literal the source
    labels "Address", and the literal it labels "Value" goes out as the
    device address.  On device 7 the enable of axis 1 writes the value 4
    at register 7 of device 1. *)
Theorem C2_single_word_write_takes_device_id_as_address
  (env : environment) (a : Z) (s : state) :
  link_writes (events_since s (snd (Axis._stop_axis env a s)))
    = [WriteRegister (slave_id s) 0 0] /\
  link_writes (events_since s (snd (Axis._enable_axis env a s)))
    = [WriteRegister (slave_id s) 4 1] /\
  link_writes (events_since s (snd (Axis._disable_axis env a s)))
    = [WriteRegister (slave_id s) 4 0] /\
  link_writes (events_since s (snd (Axis._reset_axis env a s)))
    = [WriteRegister (slave_id s) 5 1] /\
  map address_of
    (wire_writes
       (trace (StepperMQTTController._on_command healthy
                 "stepper/7/axis/1/enable" "{}" (fresh 7 true))))
    = [Some 7] /\
  map written
    (wire_writes
       (trace (StepperMQTTController._on_command healthy
                 "stepper/7/axis/1/enable" "{}" (fresh 7 true))))
    = [[VInt 4]].
Proof.
  split; [apply stop_writes|].
  split; [apply enable_writes|].
  split; [apply disable_writes|].
  split; [apply reset_writes|].
  vm_compute. split; reflexivity.
Qed.

Lemma snd_then_ret {A : Type} (m : M A) (s : state) :
  snd (bind m (fun _ => ret tt) s) = snd (m s).
Proof. unfold bind, ret. destruct (m s) as [[x|e] s']; reflexivity. Qed.

(** ** Multi-register actions *)

Section MultiRegister.
Variable env : environment.
Variable a : Z.

Ltac writes_of m :=
  intros s; unfold events_since, m; unfold_link;
  split_state s; split; by_reply env.

(** An absolute move whose position is the integer [target]. *)
Lemma move_absolute_writes :
  forall (d : list (string * pyval)) (target : Z) (s : state),
    Py.get (VDict d) "position" (VInt 0) = Ret (VInt target) ->
    let w :=
      WriteRegisters 0
        [VInt 0x0102; VInt a;
         VInt (Z.land target 0xFFFF);
         VInt (Z.land (Z.shiftr target 16) 0xFFFF);
         VInt 0; VInt 0;
         item d "speed" 1000; item d "acceleration" 1000;
         item d "deceleration" 1000]
        (slave_id s) in
    let evs := events_since s (snd (Axis._move_absolute env a (VDict d) s)) in
    link_writes evs = [w] /\
    wire_writes evs = if _connected s then [w] else [].
Proof.
  intros d target s Ht.
  unfold events_since, Axis._move_absolute; unfold_link.
  rewrite Ht. simpl Py.and_. simpl Py.rshift. cbv iota beta.
  split_state s; split; by_reply env.
Qed.

Lemma enable_servo_writes :
  forall (d : list (string * pyval)) (s : state),
    let w :=
      WriteRegisters 0
        [VInt 0x0201; VInt a; item d "max_speed" 5000;
         item d "acceleration" 1000]
        (slave_id s) in
    let evs :=
      events_since s (snd (Axis._enable_servo_mode env a (VDict d) s)) in
    link_writes evs = [w] /\
    wire_writes evs = if _connected s then [w] else [].
Proof. intros d. writes_of Axis._enable_servo_mode. Qed.

Lemma disable_servo_writes :
  forall (params : pyval) (s : state),
    let w := WriteRegisters 0 [VInt 0x0202; VInt a] (slave_id s) in
    let evs :=
      events_since s (snd (Axis._disable_servo_mode env a params s)) in
    link_writes evs = [w] /\
    wire_writes evs = if _connected s then [w] else [].
Proof. intros params. writes_of Axis._disable_servo_mode. Qed.


(** A servo speed command whose speed converts to [v]. *)
Lemma set_servo_speed_writes :
  forall (d : list (string * pyval)) (v : pyval) (s : state),
    Axis.convert_speed (item d "speed" 0) = Ret (Some v) ->
    let w := WriteRegisters 0 [VInt 0x0203; VInt a; v] (slave_id s) in
    let evs :=
      events_since s (snd (Axis._set_servo_speed env a (VDict d) s)) in
    link_writes evs = [w] /\
    wire_writes evs = if _connected s then [w] else [].
Proof.
  intros d v s Hv.
  unfold events_since, Axis._set_servo_speed; unfold_link.
  unfold Py.get. fold (item d "speed" 0). rewrite Hv.
  split_state s; split; by_reply env.
Qed.


End MultiRegister.

(** C4.  The payload [{"position":1000,"speed":500}] decodes to a dict,
    and the absolute move of that dict on axis [a] requests exactly one
    register write: nine words at start address 0 for the configured
    device, in order opcode 0x0102, axis id, low word 1000, high word 0,
    two zero words, speed 500, acceleration 1000, deceleration 1000.  The
    same write is what reaches the serial client when the link is
    connected (none does when it is not).  Through [_on_command] the
    topics of axis 0 and of axis 1 of device 1 lead to that write,
    whatever the rest of the state and the serial side are. *)
Theorem C4_absolute_move_words (env : environment) (a : Z) (s : state) :
  exists params : pyval,
    Json.loads absolute_move_payload = Some params /\
    (let evs := events_since s (snd (Axis._move_absolute env a params s)) in
     link_writes evs =
       [WriteRegisters 0 (absolute_move_words a) (slave_id s)] /\
     wire_writes evs =
       if _connected s
       then [WriteRegisters 0 (absolute_move_words a) (slave_id s)]
       else []) /\
    (forall c sc se p n t,
        let s1 := mkState 1 c sc se p n t in
        link_writes
          (events_since s1
             (StepperMQTTController._on_command env
                "stepper/1/axis/0/move/absolute" absolute_move_payload s1))
          = [WriteRegisters 0 (absolute_move_words 0) 1] /\
        link_writes
          (events_since s1
             (StepperMQTTController._on_command env
                "stepper/1/axis/1/move/absolute" absolute_move_payload s1))
          = [WriteRegisters 0 (absolute_move_words 1) 1]).
Proof.
  pose (d := [("position", VInt 1000); ("speed", VInt 500)]).
  exists (VDict d). split; [vm_compute; reflexivity|].
  split.
  - apply (move_absolute_writes env a d 1000 s). reflexivity.
  - intros c sc se p n t s1. unfold StepperMQTTController._on_command. split.
    + change (StepperMQTTController.on_command_body env
                "stepper/1/axis/0/move/absolute" absolute_move_payload s1)
        with (bind (Axis._move_absolute env 0 (VDict d)) (fun _ => ret tt) s1).
      rewrite snd_then_ret.
      apply (move_absolute_writes env 0 d 1000 s1). reflexivity.
    + change (StepperMQTTController.on_command_body env
                "stepper/1/axis/1/move/absolute" absolute_move_payload s1)
        with (bind (Axis._move_absolute env 1 (VDict d)) (fun _ => ret tt) s1).
      rewrite snd_then_ret.
      apply (move_absolute_writes env 1 d 1000 s1). reflexivity.
Qed.

(** C3 (as stated, refuted).  On device 1 with a healthy connected link,
    [home] with the payload [{}] requests a single write whose only word
    is 0: neither the default direction 1 nor the default speed 500 is
    among the written words.  A relative move with [{}] requests no write
    at all. *)
Lemma C3_home_carries_no_direction_or_speed :
  let home := trace (StepperMQTTController._on_command healthy
                       "stepper/1/axis/0/home" "{}" (fresh 1 true)) in
  let rel := trace (StepperMQTTController._on_command healthy
                      "stepper/1/axis/0/move/relative" "{}" (fresh 1 true)) in
  ~ (exists w, In w (link_writes home) /\
               In (VInt 1) (written w) /\ In (VInt 500) (written w)) /\
  link_writes rel = [].
Proof.
  vm_compute. split; [|reflexivity].
  intros [w [[Hw | []] [H1 _]]]. subst w.
  destruct H1 as [H | []]. discriminate H.
Qed.

(** C3 (amended).  With an integer position [target] and a speed that
    converts to [v], the absolute move, the servo enable, the servo
    disable and the servo speed command of axis [a] each request exactly
    one multi-register write at start address 0 for the configured device:
    the opcode first (0x0102, 0x0201, 0x0202, 0x0203), the axis id second,
    then the parameters of the action, each taken from the payload or from
    its default.  [home] requests exactly one single-register write, the
    same for every payload: it carries neither the direction nor the
    speed. *)
Theorem C3_multi_word_layout_and_home
  (env : environment) (a : Z) (d : list (string * pyval)) (s : state)
  (target : Z) (v : pyval)
  (Hposition : Py.get (VDict d) "position" (VInt 0) = Ret (VInt target))
  (Hspeed : Axis.convert_speed (item d "speed" 0) = Ret (Some v)) :
  link_writes (events_since s (snd (Axis._move_absolute env a (VDict d) s)))
    = [WriteRegisters 0
         [VInt 0x0102; VInt a;
          VInt (Z.land target 0xFFFF);
          VInt (Z.land (Z.shiftr target 16) 0xFFFF);
          VInt 0; VInt 0;
          item d "speed" 1000; item d "acceleration" 1000;
          item d "deceleration" 1000]
         (slave_id s)] /\
  link_writes (events_since s (snd (Axis._enable_servo_mode env a (VDict d) s)))
    = [WriteRegisters 0
         [VInt 0x0201; VInt a; item d "max_speed" 5000;
          item d "acceleration" 1000]
         (slave_id s)] /\
  link_writes
    (events_since s (snd (Axis._disable_servo_mode env a (VDict d) s)))
    = [WriteRegisters 0 [VInt 0x0202; VInt a] (slave_id s)] /\
  link_writes (events_since s (snd (Axis._set_servo_speed env a (VDict d) s)))
    = [WriteRegisters 0 [VInt 0x0203; VInt a; v] (slave_id s)] /\
  link_writes (events_since s (snd (Axis._home_axis env a (VDict d) s)))
    = link_writes (events_since s (snd (Axis._home_axis env a (VDict []) s))) /\
  exists x y z,
    link_writes (events_since s (snd (Axis._home_axis env a (VDict d) s)))
      = [WriteRegister x y z].
Proof.
  split; [apply (move_absolute_writes env a d target s Hposition)|].
  split; [apply enable_servo_writes|].
  split; [apply disable_servo_writes|].
  split; [apply (set_servo_speed_writes env a d v s Hspeed)|].
  destruct (home_writes env a d s) as [Hd _].
  destruct (home_writes env a [] s) as [He _].
  simpl in Hd, He. rewrite Hd, He. split; [reflexivity|].
  exists (slave_id s), 0, 1. reflexivity.
Qed.

(** The layout theorem at the payload [{"position":1000,"speed":500}] on
    axis 0 of device 1. *)
Lemma C3_multi_word_layout_and_home_witness :
  let d := [("position", VInt 1000); ("speed", VInt 500)] in
  let s := fresh 1 true in
  link_writes
    (events_since s (snd (Axis._set_servo_speed healthy 0 (VDict d) s)))
    = [WriteRegisters 0 [VInt 0x0203; VInt 0; VInt 500] 1].
Proof.
  intros d s.
  apply (C3_multi_word_layout_and_home healthy 0 d s 1000 (VInt 500));
    reflexivity.
Defined.


(** ** The command callback *)

Section Dispatch.
Variable env : environment.





End Dispatch.







(** ** Single-word commands through the callback *)

Section SingleWordCommands.
Variable env : environment.






End SingleWordCommands.




(** ** Servo speed *)

(** [Py.trunc] is the truncation toward zero of [m * 2^e]: for a negative
    exponent the result [t] satisfies [t * 2^-e <= m < (t + 1) * 2^-e]. *)
Lemma trunc_bounds (m e : Z) :
  0 <= m -> e < 0 ->
  Py.trunc false m e * 2 ^ (- e) <= m < (Py.trunc false m e + 1) * 2 ^ (- e).
Proof.
  intros Hm He. unfold Py.trunc.
  destruct (0 <=? e) eqn:E; [apply Z.leb_le in E; lia|].
  assert (Hq : 0 < 2 ^ (- e)) by (apply Z.pow_pos_nonneg; lia).
  pose proof (Z.mul_div_le m (2 ^ (- e)) Hq).
  pose proof (Z.mul_succ_div_gt m (2 ^ (- e)) Hq).
  lia.
Qed.

Lemma trunc_negated (m e : Z) : Py.trunc true m e = - Py.trunc false m e.
Proof. reflexivity. Qed.




(** ** The status poller *)

Ltac unfold_poll :=
  unfold StepperMQTTController.poll_tick, StepperMQTTController.poll_body,
    StepperMQTTController.poll_handler, ModbusConnection.is_connected,
    ModbusConnection.connect;
  unfold_link.



(** The serial side that raises on every call makes the body of a tick
    raise at its first read. *)
Example poll_body_raises :
  fst (StepperMQTTController.poll_body broken (fresh 1 true))
    = Raise TransportExc.
Proof. reflexivity. Qed.



Lemma combine_unsigned (low high : Z) :
  0 <= low < 65536 -> 0 <= high ->
  StepperMQTTController.combine low high = low + 65536 * high.
Proof.
  intros Hl Hh. unfold StepperMQTTController.combine.
  rewrite Z.shiftl_mul_pow2 by lia.
  assert (Hd : Z.land (high * 2 ^ 16) low = 0).
  { apply Z.bits_inj'. intros n Hn. rewrite Z.land_spec, Z.bits_0.
    destruct (Z.ltb_spec n 16).
    - rewrite Z.mul_pow2_bits_low by lia. reflexivity.
    - destruct (Z.eq_dec low 0) as [->|Hz];
        [rewrite Z.bits_0; apply andb_false_r|].
      rewrite (Z.bits_above_log2 low n); [apply andb_false_r|lia|].
      apply Z.lt_le_trans with 16; [|lia].
      apply Z.log2_lt_pow2; lia. }
  pose proof (Z.add_lor_land (high * 2 ^ 16) low) as H.
  rewrite Hd in H. change (2 ^ 16) with 65536 in *. lia.
Qed.


(** C6 (as stated, refuted).  The registers [0, 0x8000] of axis 0 are
    published as 2147483648 and the registers [0, 0xFFFF] of axis 1 as
    4294901760: a high word with its top bit set gives a value of at
    least 2^31, not the negative value of the two's complement reading
    (which would be 2147483648 - 2^32 and 4294901760 - 2^32). *)
Lemma C6_top_bit_set_is_published_positive :
  let s := fresh 1 true in
  let env := device_with_positions [0; 0x8000; 0; 0xFFFF] in
  skipn 2 (published (trace (StepperMQTTController.poll_tick env s))) =
    [("stepper/stepper1/axis/0/position",
      VDict [("position", VInt 2147483648)]);
     ("stepper/stepper1/axis/1/position",
      VDict [("position", VInt 4294901760)])] /\
  2147483648 <> 2147483648 - 2 ^ 32 /\
  4294901760 <> 4294901760 - 2 ^ 32 /\
  ~ (2147483648 < 0) /\ ~ (4294901760 < 0).
Proof.
  split; [vm_compute; reflexivity|]. lia.
Qed.

(** C6 (amended).  When the position read of a tick on a connected link
    returns the four 16-bit registers [l0, h0, l1, h1], the tick
    publishes, after the two status documents, the position
    [l0 + 65536 * h0] for axis 0 and [l1 + 65536 * h1] for axis 1: the low
    word first, the high word second, reassembled as an unsigned 32-bit
    integer, which is never negative.  The registers [5, 0] give 5 and
    [0, 1] give 65536. *)
Theorem C6_position_is_unsigned_combination
  (env : environment) (s : state) (l0 h0 l1 h1 : Z)
  (Hconnected : _connected s = true)
  (Hstatus : env (calls s)
               (ReadHoldingRegisters 1 StepperMQTTController.STATUS_REG
                  (slave_id s)) <> Raises)
  (Hread : env (S (calls s))
             (ReadHoldingRegisters StepperMQTTController.AXIS0_POSITION_REG 4
                (slave_id s)) = Ok [l0; h0; l1; h1])
  (H0 : 0 <= l0 < 65536 /\ 0 <= h0 < 65536)
  (H1 : 0 <= l1 < 65536 /\ 0 <= h1 < 65536) :
  let evs := events_since s (StepperMQTTController.poll_tick env s) in
  skipn 2 (published evs) =
    [(axis_topic (slave_id s) 0 "position",
      VDict [("position", VInt (l0 + 65536 * h0))]);
     (axis_topic (slave_id s) 1 "position",
      VDict [("position", VInt (l1 + 65536 * h1))])] /\
  0 <= l0 + 65536 * h0 < 2 ^ 32 /\
  0 <= l1 + 65536 * h1 < 2 ^ 32 /\
  StepperMQTTController.combine 5 0 = 5 /\
  StepperMQTTController.combine 0 1 = 65536.
Proof.
  intros evs.
  assert (Hpub :
    skipn 2 (published evs) =
      [(axis_topic (slave_id s) 0 "position",
        VDict [("position", VInt (StepperMQTTController.combine l0 h0))]);
       (axis_topic (slave_id s) 1 "position",
        VDict [("position", VInt (StepperMQTTController.combine l1 h1))])]).
  { subst evs. revert Hconnected Hstatus Hread.
    unfold events_since. unfold_poll.
    change (StepperMQTTController.AXIS0_POSITION_REG + 2
            =? StepperMQTTController.AXIS1_POSITION_REG) with true.
    cbv iota.
    split_state s; intros Hc Hs Hr; try discriminate Hc.
    simpl in Hs, Hr |- *.
    destruct (env n (ReadHoldingRegisters 1 StepperMQTTController.STATUS_REG sid))
      as [[|w ws] | |]; try (contradict Hs; reflexivity);
      simpl; rewrite Hr; close_trace. }
  rewrite (combine_unsigned l0 h0), (combine_unsigned l1 h1) in Hpub by lia.
  split; [exact Hpub|].
  split; [lia|]. split; [lia|]. split; reflexivity.
Qed.

(** The registers [5, 0] and [0, 1] on device 1. *)
Lemma C6_position_is_unsigned_combination_witness :
  let s := fresh 1 true in
  let env := device_with_positions [5; 0; 0; 1] in
  skipn 2
    (published (events_since s (StepperMQTTController.poll_tick env s))) =
    [(axis_topic 1 0 "position", VDict [("position", VInt (5 + 65536 * 0))]);
     (axis_topic 1 1 "position", VDict [("position", VInt (0 + 65536 * 1))])].
Proof.
  intros s env.
  apply (C6_position_is_unsigned_combination env s 5 0 0 1).
  - reflexivity.
  - vm_compute. discriminate.
  - reflexivity.
  - lia.
  - lia.
Defined.

(** * Further properties of the code *)

(** ** Status word *)

Lemma flag_testbit (w k : Z) :
  0 <= k -> StepperMQTTController.flag w (2 ^ k) = VBool (Z.testbit w k).
Proof.
  intros Hk. unfold StepperMQTTController.flag. f_equal.
  destruct (Z.testbit w k) eqn:E.
  - apply negb_true_iff, Z.eqb_neq. intros H.
    assert (B : Z.testbit (Z.land w (2 ^ k)) k = true).
    { rewrite Z.land_spec, E, Z.pow2_bits_true by lia. reflexivity. }
    rewrite H, Z.bits_0 in B. discriminate B.
  - apply negb_false_iff, Z.eqb_eq. apply Z.bits_inj'. intros n Hn.
    rewrite Z.land_spec, Z.bits_0, Z.pow2_bits_eqb by lia.
    destruct (Z.eqb_spec k n) as [->|]; [rewrite E|]; auto using andb_false_r.
Qed.

Lemma axis0_status_bits (w : Z) :
  StepperMQTTController.axis0_status w = status_bits w 0.
Proof.
  unfold StepperMQTTController.axis0_status, status_bits.
  repeat f_equal;
    first [ apply (flag_testbit w 0) | apply (flag_testbit w 1)
          | apply (flag_testbit w 2) | apply (flag_testbit w 3)
          | apply (flag_testbit w 4) | apply (flag_testbit w 5)
          | apply (flag_testbit w 6) ]; lia.
Qed.

Lemma axis1_status_bits (w : Z) :
  StepperMQTTController.axis1_status w = status_bits w 8.
Proof.
  unfold StepperMQTTController.axis1_status, status_bits.
  repeat f_equal;
    first [ apply (flag_testbit w 8) | apply (flag_testbit w 9)
          | apply (flag_testbit w 10) | apply (flag_testbit w 11)
          | apply (flag_testbit w 12) | apply (flag_testbit w 13)
          | apply (flag_testbit w 14) ]; lia.
Qed.

(** X1.  The seven flags published for axis 0 are the bits 0 to 6 of
    the status word and the seven flags of axis 1 are its bits 8 to 14,
    for any status word; the document of axis 1 is the document that axis
    0 would get from the word shifted right by eight bits. *)
Theorem status_word_decoding (w : Z) :
  StepperMQTTController.axis0_status w = status_bits w 0 /\
  StepperMQTTController.axis1_status w = status_bits w 8 /\
  StepperMQTTController.axis1_status w
    = StepperMQTTController.axis0_status (Z.shiftr w 8).
Proof.
  split; [apply axis0_status_bits|]. split; [apply axis1_status_bits|].
  rewrite axis1_status_bits, axis0_status_bits. unfold status_bits.
  rewrite !Z.shiftr_spec by lia. reflexivity.
Qed.

(** ** The link *)

Ltac unfold_connection :=
  unfold ModbusConnection.connect, ModbusConnection.disconnect,
    ModbusConnection.is_connected;
  unfold_link.

Ltac replies env :=
  repeat (simpl;
          match goal with
          | |- context [env ?n ?r] => destruct (env n r)
          end);
  simpl; rewrite <- ?app_assoc, ?skipn_own_app, ?skipn_all; simpl.

(** X2.  [connect] never raises and returns the value that [_connected]
    has afterwards.  On a connected link it makes no call; otherwise it
    opens the serial port, connects the client only when that did not
    raise, and the link ends connected exactly when the client reported
    success. *)
Theorem connect_reports_link_state (env : environment) (s : state) :
  let r := ModbusConnection.connect env s in
  fst r = Ret (_connected (snd r)) /\
  _connected (snd r) =
    (_connected s
     || match env (calls s) SerialOpen with
        | Raises => false
        | _ => match env (S (calls s)) ClientConnect with
               | Ok _ => true
               | _ => false
               end
        end) /\
  wire_calls (events_since s (snd r)) =
    (if _connected s then []
     else SerialOpen ::
          match env (calls s) SerialOpen with
          | Raises => []
          | _ => [ClientConnect]
          end).
Proof.
  unfold events_since. unfold_connection.
  split_state s; replies env; repeat split; try reflexivity.
Qed.

(** X3.  [is_connected] never raises and returns the value that
    [_connected] has afterwards.  On a connected link it reads one
    register at address 0 of device 1, whatever device the controller is
    configured for, and clears [_connected] unless the read succeeds; it
    never sets [_connected]. *)
Theorem is_connected_reports_link_state (env : environment) (s : state) :
  let r := ModbusConnection.is_connected env s in
  fst r = Ret (_connected (snd r)) /\
  _connected (snd r) =
    (_connected s
     && match env (calls s) (ReadHoldingRegisters 0 1 1) with
        | Ok _ => true
        | _ => false
        end) /\
  wire_calls (events_since s (snd r)) =
    (if _connected s then [ReadHoldingRegisters 0 1 1] else []).
Proof.
  unfold events_since. unfold_connection.
  split_state s; replies env; repeat split; try reflexivity.
Qed.

(** X4.  [disconnect] never raises and returns [True] exactly when the
    link is not connected afterwards: a link that was connected stays
    connected, and the result is [False], when closing the client raises. *)
Theorem disconnect_reports_link_state (env : environment) (s : state) :
  let r := ModbusConnection.disconnect env s in
  fst r = Ret (negb (_connected (snd r))) /\
  _connected (snd r) =
    (_connected s
     && match env (calls s) ClientClose with
        | Raises => true
        | _ => false
        end) /\
  wire_calls (events_since s (snd r)) =
    (if _connected s then [ClientClose] else []).
Proof.
  unfold events_since. unfold_connection.
  split_state s; replies env; repeat split; try reflexivity.
Qed.

(** ** The poller *)

Ltac poll_setup :=
  unfold events_since; unfold_poll;
  change (StepperMQTTController.AXIS0_POSITION_REG + 2
          =? StepperMQTTController.AXIS1_POSITION_REG) with true;
  cbv iota.

Ltac poll_replies env :=
  repeat (simpl;
          match goal with
          | |- context [env ?n ?r] => destruct (env n r)
          | |- context [match ?l with [] => _ | _ :: _ => _ end] =>
              is_var l; destruct l
          end);
  simpl; rewrite <- ?app_assoc, ?skipn_own_app, ?skipn_all; simpl.

(** X5.  A tick of the poller publishes either nothing, when a register
    read raised, or exactly four documents: the status of axis 0, the
    status of axis 1, the position of axis 0 and the position of axis 1,
    in that order. *)
Theorem poll_tick_publishes_four_or_none (env : environment) (s : state) :
  let evs := events_since s (StepperMQTTController.poll_tick env s) in
  match fst (StepperMQTTController.poll_body env s) with
  | Ret _ => map fst (published evs) = tick_topics (slave_id s)
  | Raise _ => published evs = []
  end.
Proof.
  poll_setup. split_state s; poll_replies env; reflexivity.
Qed.

(** X6.  Every tick first asks the link for [STATUS_REG] registers
    starting at address 1 (the arguments of the call, bound by position to
    [(address, count, slave_id)]), and then, unless that read raised, for
    four registers starting at [AXIS0_POSITION_REG]; it asks for no other
    read. *)
Theorem poll_tick_requests (env : environment) (s : state) :
  let evs := events_since s (StepperMQTTController.poll_tick env s) in
  link_reads evs =
    ReadHoldingRegisters 1 StepperMQTTController.STATUS_REG (slave_id s) ::
    match (if _connected s
           then env (calls s) (ReadHoldingRegisters 1 StepperMQTTController.STATUS_REG (slave_id s))
           else Error) with
    | Raises => []
    | _ => [ReadHoldingRegisters StepperMQTTController.AXIS0_POSITION_REG 4
         (slave_id s)]
    end.
Proof.
  poll_setup. split_state s; poll_replies env; reflexivity.
Qed.

Lemma poll_tick_trace (env : environment) (s : state) :
  exists l,
    trace (StepperMQTTController.poll_tick env s) = trace s ++ l /\
    slave_id (StepperMQTTController.poll_tick env s) = slave_id s /\
    link_writes l = [] /\ wire_writes l = [].
Proof.
  exists (events_since s (StepperMQTTController.poll_tick env s)).
  poll_setup. split_state s; poll_replies env; repeat split; reflexivity.
Qed.

Lemma link_writes_app (l1 l2 : list event) :
  link_writes (l1 ++ l2) = link_writes l1 ++ link_writes l2.
Proof.
  induction l1 as [|[r|r|t m] l1 IH]; simpl; auto.
  destruct (is_write r); simpl; rewrite IH; reflexivity.
Qed.

Lemma wire_writes_app (l1 l2 : list event) :
  wire_writes (l1 ++ l2) = wire_writes l1 ++ wire_writes l2.
Proof.
  induction l1 as [|[r|r|t m] l1 IH]; simpl; auto.
  destruct (is_write r); simpl; rewrite IH; reflexivity.
Qed.

Lemma wire_calls_app (l1 l2 : list event) :
  wire_calls (l1 ++ l2) = wire_calls l1 ++ wire_calls l2.
Proof.
  induction l1 as [|[r|r|t m] l1 IH]; simpl; auto. rewrite IH. reflexivity.
Qed.

Lemma published_app (l1 l2 : list event) :
  published (l1 ++ l2) = published l1 ++ published l2.
Proof.
  induction l1 as [|[r|r|t m] l1 IH]; simpl; auto. rewrite IH. reflexivity.
Qed.

Lemma poll_loop_trace (env : environment) (n : nat) :
  forall s : state,
    exists l,
      trace (StepperMQTTController.poll_loop env n s) = trace s ++ l /\
      slave_id (StepperMQTTController.poll_loop env n s) = slave_id s /\
      link_writes l = [] /\ wire_writes l = [].
Proof.
  induction n as [|n IH]; intros s; simpl.
  - exists []. rewrite app_nil_r. auto.
  - destruct (poll_tick_trace env s) as [l1 [H1 [Hs1 [Hl1 Hw1]]]].
    destruct (IH (StepperMQTTController.poll_tick env s))
      as [l2 [H2 [Hs2 [Hl2 Hw2]]]].
    exists (l1 ++ l2). rewrite H2, H1, app_assoc, Hs2, Hs1.
    rewrite link_writes_app, wire_writes_app, Hl1, Hl2, Hw1, Hw2. auto.
Qed.

(** X7.  The poller never writes: over any number of iterations no
    register write is requested from the link and none reaches the serial
    client, and the configured device id is unchanged. *)
Theorem poll_loop_never_writes (env : environment) (n : nat) (s : state) :
  let evs := events_since s (StepperMQTTController.poll_loop env n s) in
  link_writes evs = [] /\ wire_writes evs = [] /\
  slave_id (StepperMQTTController.poll_loop env n s) = slave_id s.
Proof.
  destruct (poll_loop_trace env n s) as [l [H [Hs [Hl Hw]]]].
  simpl. rewrite (events_since_app _ _ _ H). auto.
Qed.

(** A tick on a link that is not connected. *)
Lemma poll_tick_not_connected (env : environment) (s : state) :
  _connected s = false ->
  let s' := StepperMQTTController.poll_tick env s in
  exists l,
    trace s' = trace s ++ l /\
    wire_calls l = [] /\ List.length (published l) = 4%nat /\
    _connected s' = false /\ calls s' = calls s /\
    status_connected s' = status_connected s /\
    status_error s' = status_error s /\
    positions s' = positions s.
Proof.
  intros Hc.
  exists (events_since s (StepperMQTTController.poll_tick env s)).
  revert Hc. poll_setup. split_state s; intros Hc; try discriminate Hc.
  poll_replies env. repeat split; reflexivity.
Qed.

(** X8.  Once [_connected] is false at the start of an iteration, the
    poll loop never touches the serial side again: over any number of
    iterations it makes no call at all (so no reconnect), leaves
    [_connected], the device status and the positions as they were, and
    keeps publishing four documents per iteration. *)
Theorem poll_loop_never_reconnects
  (env : environment) (n : nat) (s : state) :
  _connected s = false ->
  let s' := StepperMQTTController.poll_loop env n s in
  let evs := events_since s s' in
  wire_calls evs = [] /\
  List.length (published evs) = (4 * n)%nat /\
  _connected s' = false /\ calls s' = calls s /\
  status_connected s' = status_connected s /\
  status_error s' = status_error s /\
  positions s' = positions s.
Proof.
  intros Hc. simpl.
  assert (H : exists l,
             trace (StepperMQTTController.poll_loop env n s) = trace s ++ l /\
             wire_calls l = [] /\ List.length (published l) = (4 * n)%nat /\
             _connected (StepperMQTTController.poll_loop env n s) = false /\
             calls (StepperMQTTController.poll_loop env n s) = calls s /\
             status_connected (StepperMQTTController.poll_loop env n s)
               = status_connected s /\
             status_error (StepperMQTTController.poll_loop env n s)
               = status_error s /\
             positions (StepperMQTTController.poll_loop env n s)
               = positions s).
  { revert s Hc. induction n as [|n IH]; intros s Hc.
    - exists []. simpl. rewrite app_nil_r. repeat split; auto.
    - destruct (poll_tick_not_connected env s Hc)
        as [l1 [H1 [W1 [P1 [C1 [K1 [S1 [E1 Q1]]]]]]]].
      destruct (IH _ C1) as [l2 [H2 [W2 [P2 [C2 [K2 [S2 [E2 Q2]]]]]]]].
      exists (l1 ++ l2). simpl StepperMQTTController.poll_loop.
      rewrite H2, H1, app_assoc, wire_calls_app, published_app, length_app.
      rewrite W1, W2, P1, P2, C2, K2, K1, S2, S1, E2, E1, Q2, Q1.
      repeat split; try reflexivity. lia. }
  destruct H as [l [H R]]. rewrite (events_since_app _ _ _ H). exact R.
Qed.

(** Three iterations on a link that is not connected. *)
Lemma poll_loop_never_reconnects_witness :
  let s := fresh 1 false in
  wire_calls (events_since s (StepperMQTTController.poll_loop healthy 3 s))
    = [].
Proof.
  intros s.
  exact (proj1 (poll_loop_never_reconnects healthy 3 s eq_refl)).
Defined.

Lemma error_flag_bits (w : Z) :
  (negb (Z.land w StepperMQTTController.AXIS0_ERROR =? 0)
   || negb (Z.land w StepperMQTTController.AXIS1_ERROR =? 0))
  = (Z.testbit w 5 || Z.testbit w 13).
Proof.
  assert (H5 : StepperMQTTController.flag w StepperMQTTController.AXIS0_ERROR
               = VBool (Z.testbit w 5)) by (apply (flag_testbit w 5); lia).
  assert (H13 : StepperMQTTController.flag w StepperMQTTController.AXIS1_ERROR
                = VBool (Z.testbit w 13)) by (apply (flag_testbit w 13); lia).
  unfold StepperMQTTController.flag in H5, H13.
  assert (E5 : negb (Z.land w StepperMQTTController.AXIS0_ERROR =? 0)
               = Z.testbit w 5) by congruence.
  assert (E13 : negb (Z.land w StepperMQTTController.AXIS1_ERROR =? 0)
                = Z.testbit w 13) by congruence.
  rewrite E5, E13. reflexivity.
Qed.

(** X9.  When the status read of a tick returns at least one register
    and the position read does not raise, the tick sets
    [status["connected"]] to true, sets [status["error"]] to
    ["Error detected"] exactly when bit 5 or bit 13 of the first register
    is set (and to [None] otherwise), and publishes first the two status
    documents decoded from that register. *)
Theorem poll_tick_status_read
  (env : environment) (s : state) (w : Z) (ws : list Z)
  (Hconnected : _connected s = true)
  (Hstatus : env (calls s)
               (ReadHoldingRegisters 1 StepperMQTTController.STATUS_REG
                  (slave_id s)) = Ok (w :: ws))
  (Hposition : env (S (calls s))
                 (ReadHoldingRegisters
                    StepperMQTTController.AXIS0_POSITION_REG 4 (slave_id s))
               <> Raises) :
  let s' := StepperMQTTController.poll_tick env s in
  status_connected s' = true /\
  status_error s' =
    (if Z.testbit w 5 || Z.testbit w 13
     then VStr "Error detected" else VNone) /\
  firstn 2 (published (events_since s s')) =
    [(axis_topic (slave_id s) 0 "status", status_bits w 0);
     (axis_topic (slave_id s) 1 "status", status_bits w 8)].
Proof.
  rewrite <- error_flag_bits, <- axis0_status_bits, <- axis1_status_bits.
  revert Hconnected Hstatus Hposition. poll_setup.
  split_state s; intros Hc Hs Hp; try discriminate Hc.
  simpl in Hs, Hp |- *. rewrite Hs. simpl.
  destruct (env (S n)
              (ReadHoldingRegisters StepperMQTTController.AXIS0_POSITION_REG
                 4 sid)) as [regs | |]; try (contradict Hp; reflexivity);
    poll_replies env; repeat split; reflexivity.
Qed.

(** X10.  When the position read of a tick returns an error or a number
    of registers other than four (five registers are refused as well),
    the stored positions are kept and the tick publishes them again. *)
Theorem poll_tick_keeps_stale_positions
  (env : environment) (s : state)
  (Hconnected : _connected s = true)
  (Hstatus : env (calls s)
               (ReadHoldingRegisters 1 StepperMQTTController.STATUS_REG
                  (slave_id s)) <> Raises)
  (Hposition :
     match env (S (calls s))
             (ReadHoldingRegisters
                StepperMQTTController.AXIS0_POSITION_REG 4 (slave_id s)) with
     | Ok regs => List.length regs <> 4%nat
     | Error => True
     | Raises => False
     end) :
  let s' := StepperMQTTController.poll_tick env s in
  positions s' = positions s /\
  skipn 2 (published (events_since s s')) =
    [(axis_topic (slave_id s) 0 "position",
      VDict [("position", VInt (fst (positions s)))]);
     (axis_topic (slave_id s) 1 "position",
      VDict [("position", VInt (snd (positions s)))])].
Proof.
  revert Hconnected Hstatus Hposition. poll_setup.
  split_state s; intros Hc Hs Hp; try discriminate Hc.
  simpl in Hs, Hp |- *.
  destruct (env n
              (ReadHoldingRegisters 1 StepperMQTTController.STATUS_REG sid))
    as [[|w ws] | |]; try (contradict Hs; reflexivity); simpl;
    destruct (env (S n)
                (ReadHoldingRegisters StepperMQTTController.AXIS0_POSITION_REG
                   4 sid)) as [[|r0 [|r1 [|r2 [|r3 [|r4 rs]]]]] | |];
    try contradiction; try (contradict Hp; reflexivity);
    simpl; rewrite <- ?app_assoc, ?skipn_own_app; simpl;
    split; reflexivity.
Qed.

(** Stored positions 42 and 7 survive a failed position read. *)
Lemma poll_tick_keeps_stale_positions_witness :
  let s := mkState 1 true true VNone (42, 7) 0 [] in
  positions (StepperMQTTController.poll_tick failing s) = (42, 7).
Proof.
  intros s.
  refine (proj1 (poll_tick_keeps_stale_positions failing s eq_refl _ I)).
  vm_compute. discriminate.
Defined.

(** The status word 0x2001 has bit 13 set. *)
Lemma poll_tick_status_read_witness :
  let s := fresh 1 true in
  let env := fun (_ : nat) (_ : request) => Ok [0x2001; 0; 0; 0] in
  status_error (StepperMQTTController.poll_tick env s) = VStr "Error detected".
Proof.
  intros s env.
  refine (proj1 (proj2 (poll_tick_status_read env s 0x2001 [0; 0; 0]
                          eq_refl eq_refl _))).
  vm_compute. discriminate.
Defined.


(** ** Commands: what they may and may not do *)

Lemma good_here {A : Type} (o : outcome A) (s : state) : good s (o, s).
Proof.
  exists []. simpl. rewrite app_nil_r. repeat split; auto.
Qed.

Lemma orderly_ret {A : Type} (a : A) : orderly (ret a).
Proof. intros s. apply good_here. Qed.

Lemma orderly_raise {A : Type} (e : exn) : orderly (@raise A e).
Proof. intros s. apply good_here. Qed.

Lemma orderly_lift {A : Type} (o : outcome A) : orderly (lift o).
Proof. intros s. apply good_here. Qed.

Lemma orderly_gets {A : Type} (f : state -> A) : orderly (gets f).
Proof. intros s. apply good_here. Qed.

Lemma orderly_bind {A B : Type} (m : M A) (k : A -> M B) :
  orderly m -> (forall a, orderly (k a)) -> orderly (bind m k).
Proof.
  intros Hm Hk s. unfold bind.
  destruct (Hm s) as [l1 [T1 [D1 [C1 [F1 P1]]]]].
  destruct (m s) as [[a|e] s1]; simpl in *.
  - destruct (Hk a s1) as [l2 [T2 [D2 [C2 [F2 P2]]]]].
    destruct D1 as [I1 [N1 [S1 [E1 Q1]]]].
    destruct D2 as [I2 [N2 [S2 [E2 Q2]]]].
    exists (l1 ++ l2). rewrite T2, T1, app_assoc.
    split; [reflexivity|]. split.
    { unfold same_device. rewrite I2, N2, S2, E2, Q2. auto. }
    split; [lia|]. split.
    { apply Forall_app. split; [exact F1|]. rewrite <- I1, <- N1. exact F2. }
    rewrite published_app, link_writes_app, !length_app. lia.
  - exists l1. auto.
Qed.

(** [sid <- gets slave_id ;; k sid]: the continuation is only run with
    the device id of the state. *)
Lemma good_gets_slave_id {B : Type} (k : Z -> M B) (s : state) :
  good s (k (slave_id s) s) -> good s (bind (gets slave_id) k s).
Proof. intros H. exact H. Qed.

Lemma good_lift {A B : Type} (o : outcome A) (k : A -> M B) (s : state) :
  (forall a, o = Ret a -> good s (k a s)) -> good s (bind (lift o) k s).
Proof.
  intros H. unfold bind, lift. destruct o as [a|e].
  - apply H. reflexivity.
  - apply good_here.
Qed.

Ltac events_ok Ht :=
  repeat first [apply Forall_nil | apply Forall_cons]; simpl;
  try reflexivity; try (split; reflexivity);
  try (split;
       [ exact Ht
       | do 3 eexists; split;
         [ reflexivity
         | first [ reflexivity
                 | let H := fresh in intros H; discriminate H ] ] ]).

Ltac finish Ht :=
  split; [reflexivity|];
  split; [repeat split|];
  split; [simpl; lia|];
  split; [events_ok Ht | simpl; lia].

Section Tails.
Variable env : environment.
Variable a : Z.
Hypothesis Ha : a = 0 \/ a = 1.

(** A multi-register write followed by its acknowledgment. *)
Lemma good_registers_ack
(address : Z) (values : list pyval) (cmd : string)
(rest : list (string * pyval)) (s : state) :
good s
(bind (ModbusConnection.write_registers env address values (slave_id s))
   (fun result =>
      bind (publish (axis_topic (slave_id s) a "ack")
              (VDict (("command", VStr cmd)
                      :: ("success", VBool result) :: rest)))
        (fun _ => ret result)) s).
Proof.
set (t := axis_topic (slave_id s) a "ack").
assert (Ht : t = axis_topic (slave_id s) 0 "ack"
           \/ t = axis_topic (slave_id s) 1 "ack")
by (destruct Ha; subst a; auto).
clearbody t.
match goal with |- good s ?r => exists (events_since s (snd r)) end.
unfold events_since, same_device; unfold_link.
destruct s as [sid c sc se p n tr]; simpl in *. destruct c; simpl.
- destruct (env n (WriteRegisters address values sid)); simpl;
  rewrite <- ?app_assoc, ?skipn_own_app; simpl; finish Ht.
- rewrite <- ?app_assoc, ?skipn_own_app; simpl. finish Ht.
Qed.

(** A single-register write followed by its acknowledgment. *)
Lemma good_register_ack
(address value slave : Z) (cmd : string)
(rest : list (string * pyval)) (s : state) :
good s
(bind (ModbusConnection.write_register env address value slave)
   (fun result =>
      bind (publish (axis_topic (slave_id s) a "ack")
              (VDict (("command", VStr cmd)
                      :: ("success", VBool result) :: rest)))
        (fun _ => ret result)) s).
Proof.
set (t := axis_topic (slave_id s) a "ack").
assert (Ht : t = axis_topic (slave_id s) 0 "ack"
           \/ t = axis_topic (slave_id s) 1 "ack")
by (destruct Ha; subst a; auto).
clearbody t.
match goal with |- good s ?r => exists (events_since s (snd r)) end.
unfold events_since, same_device; unfold_link.
destruct s as [sid c sc se p n tr]; simpl in *. destruct c; simpl.
- destruct (env n (WriteRegister address value slave)); simpl;
  rewrite <- ?app_assoc, ?skipn_own_app; simpl; finish Ht.
- rewrite <- ?app_assoc, ?skipn_own_app; simpl. finish Ht.
Qed.
End Tails.

Section Handlers.
Variable env : environment.
Variable a : Z.
Hypothesis Ha : a = 0 \/ a = 1.

Ltac handler_step :=
first
[ apply good_registers_ack; exact Ha
| apply good_register_ack; exact Ha
| apply good_gets_slave_id
| apply good_lift; intros ? ?; try discriminate
| apply good_here ].

Ltac handler h :=
intros s; unfold h; cbv zeta; repeat handler_step.

Lemma orderly_move_absolute params :
orderly (Axis._move_absolute env a params).
Proof. handler Axis._move_absolute. Qed.

Lemma orderly_move_relative params :
orderly (Axis._move_relative a params).
Proof.
handler Axis._move_relative.
Qed.

Lemma orderly_home params : orderly (Axis._home_axis env a params).
Proof. handler Axis._home_axis. Qed.

Lemma orderly_stop : orderly (Axis._stop_axis env a).
Proof. handler Axis._stop_axis. Qed.

Lemma orderly_enable : orderly (Axis._enable_axis env a).
Proof. handler Axis._enable_axis. Qed.

Lemma orderly_disable : orderly (Axis._disable_axis env a).
Proof. handler Axis._disable_axis. Qed.

Lemma orderly_reset : orderly (Axis._reset_axis env a).
Proof. handler Axis._reset_axis. Qed.

Lemma orderly_enable_servo params :
orderly (Axis._enable_servo_mode env a params).
Proof. handler Axis._enable_servo_mode. Qed.

Lemma orderly_disable_servo params :
orderly (Axis._disable_servo_mode env a params).
Proof. handler Axis._disable_servo_mode. Qed.

Lemma orderly_set_servo_speed params :
orderly (Axis._set_servo_speed env a params).
Proof.
handler Axis._set_servo_speed.
match goal with |- good _ (match ?c with _ => _ end _) => destruct c end;
repeat handler_step.
Qed.
End Handlers.

Section Dispatcher.
Variable env : environment.

Ltac by_axis h :=
unfold h;
repeat match goal with
     | |- context [?x =? ?y] => destruct (x =? y)
     end;
first [ apply orderly_ret
    | eauto using orderly_move_absolute, orderly_move_relative,
        orderly_home, orderly_stop, orderly_enable, orderly_disable,
        orderly_reset, orderly_enable_servo, orderly_disable_servo,
        orderly_set_servo_speed ].

Lemma orderly_ctl_move_absolute i params :
orderly (StepperMQTTController._move_absolute env i params).
Proof. by_axis StepperMQTTController._move_absolute. Qed.

Lemma orderly_ctl_move_relative i params :
orderly (StepperMQTTController._move_relative i params).
Proof. by_axis StepperMQTTController._move_relative. Qed.

Lemma orderly_ctl_home i params :
orderly (StepperMQTTController._home_axis env i params).
Proof. by_axis StepperMQTTController._home_axis. Qed.

Lemma orderly_ctl_stop i : orderly (StepperMQTTController._stop_axis env i).
Proof. by_axis StepperMQTTController._stop_axis. Qed.

Lemma orderly_ctl_enable i :
orderly (StepperMQTTController._enable_axis env i).
Proof. by_axis StepperMQTTController._enable_axis. Qed.

Lemma orderly_ctl_disable i :
orderly (StepperMQTTController._disable_axis env i).
Proof. by_axis StepperMQTTController._disable_axis. Qed.

Lemma orderly_ctl_reset i :
orderly (StepperMQTTController._reset_axis env i).
Proof. by_axis StepperMQTTController._reset_axis. Qed.

Lemma orderly_ctl_enable_servo i params :
orderly (StepperMQTTController._enable_servo_mode env i params).
Proof. by_axis StepperMQTTController._enable_servo_mode. Qed.

Lemma orderly_ctl_disable_servo i :
orderly (StepperMQTTController._disable_servo_mode env i).
Proof. by_axis StepperMQTTController._disable_servo_mode. Qed.

Lemma orderly_ctl_set_servo_speed i params :
orderly (StepperMQTTController._set_servo_speed env i params).
Proof.
unfold StepperMQTTController._set_servo_speed.
destruct (negb (Py.truthy params)); [apply orderly_ret|].
destruct (i =? 0); eauto using orderly_set_servo_speed.
Qed.

Ltac then_ret := apply orderly_bind; [|intros _; apply orderly_ret].

Lemma orderly_axis_command cmd i doc :
orderly (StepperMQTTController.axis_command env cmd i doc).
Proof.
unfold StepperMQTTController.axis_command.
repeat match goal with
     | |- context [String.eqb ?x ?y] => destruct (String.eqb x y)
     end;
try apply orderly_ret; then_ret;
auto using orderly_ctl_move_absolute, orderly_ctl_move_relative,
  orderly_ctl_home, orderly_ctl_stop, orderly_ctl_enable,
  orderly_ctl_disable, orderly_ctl_reset, orderly_ctl_enable_servo,
  orderly_ctl_disable_servo, orderly_ctl_set_servo_speed.
Qed.

Lemma orderly_device_command cmd :
orderly (StepperMQTTController.device_command env cmd).
Proof.
unfold StepperMQTTController.device_command.
repeat match goal with
     | |- context [String.eqb ?x ?y] => destruct (String.eqb x y)
     end;
try apply orderly_ret;
(apply orderly_bind;
 [|intros _; apply orderly_bind; [|intros _; apply orderly_ret]]);
auto using orderly_ctl_enable, orderly_ctl_disable, orderly_ctl_reset.
Qed.

Lemma orderly_on_command topic payload :
orderly (StepperMQTTController.on_command_body env topic payload).
Proof.
unfold StepperMQTTController.on_command_body. cbv zeta.
destruct (_ <? 3); [apply orderly_ret|].
apply orderly_bind; [apply orderly_gets|]. intros sid.
destruct (negb _); [apply orderly_ret|].
destruct (Json.loads payload) as [doc|]; [|apply orderly_ret].
destruct (_ =? 3); [apply orderly_device_command|].
destruct (_ && _); [|apply orderly_ret].
destruct (Py.int_str _); [|apply orderly_ret].
apply orderly_axis_command.
Qed.
End Dispatcher.

Lemma command_events_kinds (sid : Z) (c : bool) (l : list event) :
  Forall (command_event sid c) l ->
  link_reads l = [] /\ connect_attempts l = [] /\
  wire_calls l = wire_writes l.
Proof.
  induction 1 as [|e l He Hl [IH1 [IH2 IH3]]]; [auto|].
  destruct e as [r|r|t m]; simpl in *.
  - destruct r; try discriminate He; auto.
  - destruct He as [He _]. destruct r; try discriminate He; simpl;
      rewrite IH3; auto.
  - auto.
Qed.

Lemma command_events_disconnected (sid : Z) (l : list event) :
  Forall (command_event sid false) l ->
  wire_calls l = [] /\
  Forall (fun tm : string * pyval =>
            exists cmd rest,
              snd tm = VDict (("command", VStr cmd)
                              :: ("success", VBool false) :: rest))
    (published l).
Proof.
  induction 1 as [|e l He Hl [IH1 IH2]]; [simpl; auto|].
  destruct e as [r|r|t m]; simpl in *; auto.
  - destruct He as [_ He]. discriminate He.
  - split; [exact IH1|]. constructor; [|exact IH2].
    destruct He as [_ [cmd [b [rest [Hm Hb]]]]].
    rewrite (Hb eq_refl) in Hm. exists cmd, rest. exact Hm.
Qed.

Lemma on_command_good (env : environment) (topic payload : string)
  (s : state) :
  good s (StepperMQTTController.on_command_body env topic payload s).
Proof. apply orderly_on_command. Qed.

(** X11.  Handling a command never touches what the poller and the link
    own: whatever the topic, the payload and the serial side, after
    [_on_command] the configured device id, [_connected],
    [status["connected"]], [status["error"]] and the stored positions are
    what they were; the trace is only extended and the count of serial
    calls never decreases. *)
Theorem command_leaves_device_state
  (env : environment) (topic payload : string) (s : state) :
  let s' := StepperMQTTController._on_command env topic payload s in
  slave_id s' = slave_id s /\ _connected s' = _connected s /\
  status_connected s' = status_connected s /\
  status_error s' = status_error s /\ positions s' = positions s /\
  (calls s <= calls s')%nat /\
  trace s' = trace s ++ events_since s s'.
Proof.
  destruct (on_command_good env topic payload s)
    as [l [T [[I [N [S [E Q]]]] [C _]]]].
  unfold StepperMQTTController._on_command. simpl.
  rewrite (events_since_app _ _ _ T). auto 10.
Qed.

(** X12.  Whatever the message, the only things [_on_command] does are
    register writes and acknowledgments: every event it leaves is a write
    requested from the link, a write on the wire, or a document on the
    ack topic of axis 0 or axis 1 of the configured device that starts
    with the keys ["command"] and ["success"].  It requests no register
    read, never opens the port or connects the client, and publishes no
    more acknowledgments than it requested writes. *)
Theorem command_events_are_writes_and_acks
  (env : environment) (topic payload : string) (s : state) :
  let evs :=
    events_since s (StepperMQTTController._on_command env topic payload s) in
  Forall (command_event (slave_id s) (_connected s)) evs /\
  link_reads evs = [] /\ connect_attempts evs = [] /\
  wire_calls evs = wire_writes evs /\
  (List.length (published evs) <= List.length (link_writes evs))%nat.
Proof.
  destruct (on_command_good env topic payload s) as [l [T [_ [_ [F P]]]]].
  unfold StepperMQTTController._on_command. simpl.
  rewrite (events_since_app _ _ _ T).
  destruct (command_events_kinds _ _ _ F) as [R [A W]]. auto.
Qed.

(** X13.  On a link that is not connected no command reaches the serial
    side, and every acknowledgment that a command publishes says
    [success: false]. *)
Theorem command_on_disconnected_link
  (env : environment) (topic payload : string) (s : state) :
  _connected s = false ->
  let evs :=
    events_since s (StepperMQTTController._on_command env topic payload s) in
  wire_calls evs = [] /\
  Forall (fun tm : string * pyval =>
            exists cmd rest,
              snd tm = VDict (("command", VStr cmd)
                              :: ("success", VBool false) :: rest))
    (published evs).
Proof.
  intros Hc.
  destruct (on_command_good env topic payload s) as [l [T [_ [_ [F _]]]]].
  unfold StepperMQTTController._on_command. simpl.
  rewrite (events_since_app _ _ _ T). rewrite Hc in F.
  apply (command_events_disconnected _ _ F).
Qed.

(** An absolute move on a link that is not connected. *)
Lemma command_on_disconnected_link_witness :
  wire_calls
    (events_since (fresh 1 false)
       (StepperMQTTController._on_command healthy
          "stepper/1/axis/0/move/absolute" absolute_move_payload
          (fresh 1 false))) = [].
Proof.
  exact (proj1 (command_on_disconnected_link healthy
                  "stepper/1/axis/0/move/absolute" absolute_move_payload
                  (fresh 1 false) eq_refl)).
Defined.


(** ** Routing by axis id and by payload *)

Ltac pick_command cmd :=
  repeat match goal with
         | H : In cmd (_ :: _) |- _ => destruct H as [H | H]; [subst cmd|]
         | H : In cmd [] |- _ => destruct H
         end.

(** X14.  A move, home, stop, enable, disable or reset addressed to an
    axis id other than 0 and 1 does nothing: no register write, no
    acknowledgment, no change of state. *)
Theorem axis_id_out_of_range_is_dropped
  (env : environment) (cmd : string) (i : Z) (doc : pyval) (s : state) :
  i <> 0 -> i <> 1 ->
  In cmd ["move_absolute"; "move_relative"; "home"; "stop"; "enable";
          "disable"; "reset"] ->
  StepperMQTTController.axis_command env cmd i doc s = (Ret tt, s).
Proof.
  intros H0 H1 Hc.
  apply Z.eqb_neq in H0. apply Z.eqb_neq in H1.
  pick_command cmd;
    cbv [StepperMQTTController.axis_command String.eqb Ascii.eqb Bool.eqb];
    unfold StepperMQTTController._move_absolute,
      StepperMQTTController._move_relative, StepperMQTTController._home_axis,
      StepperMQTTController._stop_axis, StepperMQTTController._enable_axis,
      StepperMQTTController._disable_axis, StepperMQTTController._reset_axis;
    rewrite H0, H1; reflexivity.
Qed.

(** A stop for axis 2. *)
Lemma axis_id_out_of_range_is_dropped_witness :
  StepperMQTTController.axis_command healthy "stop" 2 (VDict []) (fresh 1 true)
    = (Ret tt, fresh 1 true).
Proof.
  apply axis_id_out_of_range_is_dropped; [lia | lia | simpl; auto].
Defined.

(** X15.  The servo commands do not reject an axis id: enable_servo,
    disable_servo and servo_speed addressed to any axis id other than 0
    behave exactly as if addressed to axis 1. *)
Theorem servo_commands_fall_back_to_axis_1
  (env : environment) (cmd : string) (i : Z) (doc : pyval) :
  i <> 0 ->
  In cmd ["enable_servo"; "disable_servo"; "servo_speed"] ->
  StepperMQTTController.axis_command env cmd i doc
    = StepperMQTTController.axis_command env cmd 1 doc.
Proof.
  intros H0 Hc. apply Z.eqb_neq in H0.
  pick_command cmd;
    cbv [StepperMQTTController.axis_command String.eqb Ascii.eqb Bool.eqb];
    unfold StepperMQTTController._enable_servo_mode,
      StepperMQTTController._disable_servo_mode,
      StepperMQTTController._set_servo_speed;
    rewrite H0; reflexivity.
Qed.

(** A disable_servo for axis 7. *)
Lemma servo_commands_fall_back_to_axis_1_witness :
  StepperMQTTController.axis_command healthy "disable_servo" 7 (VDict [])
    = StepperMQTTController.axis_command healthy "disable_servo" 1 (VDict []).
Proof.
  apply servo_commands_fall_back_to_axis_1; [lia | simpl; auto].
Defined.

(** X16.  A servo_speed command whose payload is not a non-empty JSON
    object (an empty object, [null], a number, a string, a list, a
    boolean) does nothing: no register write, no acknowledgment. *)
Theorem servo_speed_needs_a_non_empty_object
  (env : environment) (i : Z) (params : pyval) (s : state) :
  (forall d, params = VDict d -> d = []) ->
  snd (StepperMQTTController.axis_command env "servo_speed" i params s) = s.
Proof.
  intros H.
  change (StepperMQTTController.axis_command env "servo_speed" i params)
    with (bind (StepperMQTTController._set_servo_speed env i params)
            (fun _ => ret tt)).
  rewrite snd_then_ret.
  unfold StepperMQTTController._set_servo_speed.
  destruct params as [| b | z | f | str | l | d]; simpl;
    try reflexivity; try (destruct (negb _); reflexivity).
  rewrite (H d eq_refl). reflexivity.
Qed.

(** The payload [[5]]. *)
Lemma servo_speed_needs_a_non_empty_object_witness :
  snd (StepperMQTTController.axis_command healthy "servo_speed" 0
         (VList [VInt 5]) (fresh 1 true)) = fresh 1 true.
Proof.
  apply servo_speed_needs_a_non_empty_object. intros d H. discriminate H.
Defined.

(** X17.  A servo_speed command whose payload is a non-empty object
    without the key ["speed"] writes the speed 0. *)
Theorem servo_speed_defaults_to_zero
  (env : environment) (a : Z) (d : list (string * pyval)) (s : state) :
  d <> [] -> Py.lookup d "speed" = None ->
  link_writes
    (events_since s
       (snd (StepperMQTTController._set_servo_speed env a (VDict d) s)))
    = [WriteRegisters 0 [VInt 0x0203; VInt (if a =? 0 then 0 else 1); VInt 0]
         (slave_id s)].
Proof.
  intros Hd Hl. unfold StepperMQTTController._set_servo_speed.
  destruct d as [|kv d']; [contradiction|]. simpl Py.truthy. simpl negb.
  cbv iota.
  apply (set_servo_speed_writes env (if a =? 0 then 0 else 1)
           (kv :: d') (VInt 0) s).
  unfold item. rewrite Hl. reflexivity.
Qed.

(** The payload [{"rate": 9}]. *)
Lemma servo_speed_defaults_to_zero_witness :
  link_writes
    (events_since (fresh 1 true)
       (snd (StepperMQTTController._set_servo_speed healthy 0
               (VDict [("rate", VInt 9)]) (fresh 1 true))))
    = [WriteRegisters 0 [VInt 0x0203; VInt 0; VInt 0] 1].
Proof.
  apply (servo_speed_defaults_to_zero healthy 0 [("rate", VInt 9)]
           (fresh 1 true)); [discriminate | reflexivity].
Defined.

(** X18.  An absolute move, a relative move or a home whose payload is
    valid JSON but not an object, and a servo enable whose payload is
    neither an object nor [null], does nothing: no register write, no
    acknowledgment, no change of state. *)
Theorem payload_that_is_not_an_object_is_dropped
  (env : environment) (cmd : string) (i : Z) (params : pyval) (s : state) :
  (forall d, params <> VDict d) ->
  In cmd ["move_absolute"; "move_relative"; "home"] \/
  (cmd = "enable_servo" /\ params <> VNone) ->
  snd (StepperMQTTController.axis_command env cmd i params s) = s.
Proof.
  intros Hd [Hc | [-> Hn]].
  - pick_command cmd;
      cbv [StepperMQTTController.axis_command String.eqb Ascii.eqb Bool.eqb];
      rewrite snd_then_ret;
      unfold StepperMQTTController._move_absolute,
        StepperMQTTController._move_relative,
        StepperMQTTController._home_axis,
        Axis._move_absolute, Axis._move_relative, Axis._home_axis;
      destruct (i =? 0); try destruct (i =? 1); try reflexivity;
      destruct params; try reflexivity; exfalso; eapply Hd; reflexivity.
  - cbv [StepperMQTTController.axis_command String.eqb Ascii.eqb Bool.eqb].
    rewrite snd_then_ret.
    unfold StepperMQTTController._enable_servo_mode, Axis._enable_servo_mode.
    destruct params; try reflexivity; try contradiction.
    exfalso; eapply Hd; reflexivity.
Qed.

(** A home with the payload [3]. *)
Lemma payload_that_is_not_an_object_is_dropped_witness :
  snd (StepperMQTTController.axis_command healthy "home" 0 (VInt 3)
         (fresh 1 true)) = fresh 1 true.
Proof.
  apply payload_that_is_not_an_object_is_dropped.
  - intros d H. discriminate H.
  - left. simpl. auto.
Defined.

(** X19.  A servo enable whose payload is [null] is carried out with the
    defaults: it requests the write of the words 0x0201, axis, 5000,
    1000. *)
Theorem enable_servo_null_payload_uses_defaults
  (env : environment) (i : Z) (s : state) :
  link_writes
    (events_since s
       (snd (StepperMQTTController._enable_servo_mode env i VNone s)))
    = [WriteRegisters 0
         [VInt 0x0201; VInt (if i =? 0 then 0 else 1); VInt 5000; VInt 1000]
         (slave_id s)].
Proof.
  unfold StepperMQTTController._enable_servo_mode.
  apply (enable_servo_writes env (if i =? 0 then 0 else 1) [] s).
Qed.

(** ** Position words *)

Lemma position_words (target : Z) :
  let low := Z.land target 0xFFFF in
  let high := Z.land (Z.shiftr target 16) 0xFFFF in
  0 <= low < 65536 /\ 0 <= high < 65536 /\
  StepperMQTTController.combine low high = target mod 2 ^ 32.
Proof.
  intros low high.
  assert (Hl : low = target mod 2 ^ 16)
    by (subst low; change 0xFFFF with (Z.ones 16); apply Z.land_ones; lia).
  assert (Hh : high = (target / 2 ^ 16) mod 2 ^ 16).
  { subst high. change 0xFFFF with (Z.ones 16).
    rewrite Z.land_ones, Z.shiftr_div_pow2 by lia. reflexivity. }
  assert (Bl : 0 <= low < 65536)
    by (rewrite Hl; apply Z.mod_pos_bound; reflexivity).
  assert (Bh : 0 <= high < 65536)
    by (rewrite Hh; apply Z.mod_pos_bound; reflexivity).
  split; [exact Bl|]. split; [exact Bh|].
  rewrite combine_unsigned by lia.
  change (2 ^ 32) with (2 ^ 16 * 2 ^ 16).
  rewrite Z.rem_mul_r by lia. rewrite Hl, Hh.
  change (2 ^ 16) with 65536. lia.
Qed.

(** X20.  The two position words that an absolute move writes are 16-bit
    values, and the poller's combination of them gives back the target
    modulo 2^32: a target from 0 to 2^32 - 1 is read back as it is, a
    negative target is read back increased by 2^32, and anything beyond 32
    bits is cut off. *)
Theorem position_words_round_trip
  (env : environment) (a : Z) (d : list (string * pyval)) (target : Z)
  (s : state)
  (Hposition : Py.get (VDict d) "position" (VInt 0) = Ret (VInt target)) :
  exists (low high : Z) (rest : list pyval),
    link_writes (events_since s (snd (Axis._move_absolute env a (VDict d) s)))
      = [WriteRegisters 0
           (VInt 0x0102 :: VInt a :: VInt low :: VInt high :: rest)
           (slave_id s)] /\
    0 <= low < 65536 /\ 0 <= high < 65536 /\
    StepperMQTTController.combine low high = target mod 2 ^ 32.
Proof.
  destruct (position_words target) as [Bl [Bh Hc]].
  destruct (move_absolute_writes env a d target s Hposition) as [Hw _].
  do 3 eexists. split; [exact Hw|].
  split; [exact Bl|]. split; [exact Bh|]. exact Hc.
Qed.

(** The target -2. *)
Lemma position_words_round_trip_witness :
  exists (low high : Z) (rest : list pyval),
    link_writes
      (events_since (fresh 1 true)
         (snd (Axis._move_absolute healthy 0
                 (VDict [("position", VInt (-2))]) (fresh 1 true))))
      = [WriteRegisters 0
           (VInt 0x0102 :: VInt 0 :: VInt low :: VInt high :: rest) 1] /\
    StepperMQTTController.combine low high = (-2) mod 2 ^ 32.
Proof.
  destruct (position_words_round_trip healthy 0 [("position", VInt (-2))]
              (-2) (fresh 1 true) eq_refl)
    as [low [high [rest [Hw [_ [_ Hc]]]]]].
  exists low, high, rest. split; [exact Hw | exact Hc].
Defined.

(** ** Acknowledgments of the multi-register actions *)

(** X21.  The multi-register actions acknowledge truthfully: the absolute
    move, the servo enable, the servo disable and the servo speed command
    publish one acknowledgment whose [success] is true exactly when the
    link is connected and the device accepted the write, and none when
    the client raised.  The acknowledgment of the move echoes the target
    as it was given, that of the servo speed the converted speed. *)
Theorem multi_register_acknowledgments
  (env : environment) (a : Z) (d : list (string * pyval)) (s : state)
  (target : Z) (v : pyval)
  (Hposition : Py.get (VDict d) "position" (VInt 0) = Ret (VInt target))
  (Hspeed : Axis.convert_speed (item d "speed" 0) = Ret (Some v)) :
  published (events_since s (snd (Axis._move_absolute env a (VDict d) s)))
    = ack_after env a s
        (WriteRegisters 0
           [VInt 0x0102; VInt a;
            VInt (Z.land target 0xFFFF);
            VInt (Z.land (Z.shiftr target 16) 0xFFFF);
            VInt 0; VInt 0;
            item d "speed" 1000; item d "acceleration" 1000;
            item d "deceleration" 1000]
           (slave_id s))
        (fun b =>
           VDict [("command", VStr "move_absolute"); ("success", VBool b);
                  ("params",
                   VDict [("target", VInt target);
                          ("speed", item d "speed" 1000);
                          ("accel", item d "acceleration" 1000);
                          ("decel", item d "deceleration" 1000)])]) /\
  published
    (events_since s (snd (Axis._enable_servo_mode env a (VDict d) s)))
    = ack_after env a s
        (WriteRegisters 0
           [VInt 0x0201; VInt a; item d "max_speed" 5000;
            item d "acceleration" 1000]
           (slave_id s))
        (fun b =>
           VDict [("command", VStr "enable_servo_mode");
                  ("success", VBool b);
                  ("params",
                   VDict [("max_speed", item d "max_speed" 5000);
                          ("acceleration", item d "acceleration" 1000)])]) /\
  published
    (events_since s (snd (Axis._disable_servo_mode env a (VDict d) s)))
    = ack_after env a s
        (WriteRegisters 0 [VInt 0x0202; VInt a] (slave_id s))
        (plain_ack "disable_servo_mode") /\
  published
    (events_since s (snd (Axis._set_servo_speed env a (VDict d) s)))
    = ack_after env a s
        (WriteRegisters 0 [VInt 0x0203; VInt a; v] (slave_id s))
        (fun b =>
           VDict [("command", VStr "set_servo_speed"); ("success", VBool b);
                  ("params", VDict [("speed", v)])]).
Proof.
  unfold events_since, ack_after, Axis._move_absolute,
    Axis._enable_servo_mode, Axis._disable_servo_mode, Axis._set_servo_speed.
  unfold_link. unfold item, Py.get in *.
  injection Hposition as Hposition.
  rewrite Hposition, Hspeed. simpl Py.and_. simpl Py.rshift. cbv iota beta.
  split_state s; repeat split; by_reply env.
Qed.

(** A servo disable on a healthy link. *)
Lemma multi_register_acknowledgments_witness :
  published
    (events_since (fresh 1 true)
       (snd (Axis._disable_servo_mode healthy 1
               (VDict [("position", VInt 1000); ("speed", VInt 500)])
               (fresh 1 true))))
    = [(axis_topic 1 1 "ack", plain_ack "disable_servo_mode" true)].
Proof.
  exact (proj1 (proj2 (proj2
           (multi_register_acknowledgments healthy 1
              [("position", VInt 1000); ("speed", VInt 500)] (fresh 1 true)
              1000 (VInt 500) eq_refl eq_refl)))).
Defined.

(** ** Single-register actions do not name the axis *)

(** X22.  The register write of stop, enable, disable, reset and home is
    the same for every axis: the axis only decides the topic of the
    acknowledgment. *)
Theorem single_register_write_ignores_the_axis
  (env : environment) (a b : Z) (d : list (string * pyval)) (s : state) :
  link_writes (events_since s (snd (Axis._stop_axis env a s)))
    = link_writes (events_since s (snd (Axis._stop_axis env b s))) /\
  link_writes (events_since s (snd (Axis._enable_axis env a s)))
    = link_writes (events_since s (snd (Axis._enable_axis env b s))) /\
  link_writes (events_since s (snd (Axis._disable_axis env a s)))
    = link_writes (events_since s (snd (Axis._disable_axis env b s))) /\
  link_writes (events_since s (snd (Axis._reset_axis env a s)))
    = link_writes (events_since s (snd (Axis._reset_axis env b s))) /\
  link_writes (events_since s (snd (Axis._home_axis env a (VDict d) s)))
    = link_writes (events_since s (snd (Axis._home_axis env b (VDict d) s))).
Proof.
  destruct (stop_writes env a s) as [A1 _].
  destruct (stop_writes env b s) as [B1 _].
  destruct (enable_writes env a s) as [A2 _].
  destruct (enable_writes env b s) as [B2 _].
  destruct (disable_writes env a s) as [A3 _].
  destruct (disable_writes env b s) as [B3 _].
  destruct (reset_writes env a s) as [A4 _].
  destruct (reset_writes env b s) as [B4 _].
  destruct (home_writes env a d s) as [A5 _].
  destruct (home_writes env b d s) as [B5 _].
  simpl in *. rewrite A1, B1, A2, B2, A3, B3, A4, B4, A5, B5. auto.
Qed.

(** ** Device-level commands *)

Section DeviceLevel.
Variable env : environment.

Ltac device_run :=
intros s Hc; revert Hc; unfold events_since;
cbv [StepperMQTTController.device_command String.eqb Ascii.eqb Bool.eqb];
unfold StepperMQTTController._enable_axis,
StepperMQTTController._disable_axis, StepperMQTTController._reset_axis;
simpl Z.eqb; cbv iota;
unfold Axis._enable_axis, Axis._disable_axis, Axis._reset_axis;
unfold_link;
split_state s; intros Hc; try discriminate Hc; simpl;
repeat (match goal with
      | |- context [env ?n ?r] => destruct (env n r)
      end; simpl);
rewrite <- ?app_assoc, ?skipn_own_app; simpl; split; reflexivity.

Lemma device_enable_run : forall s : state,
_connected s = true ->
let evs := events_since s
           (snd (StepperMQTTController.device_command env "enable" s)) in
let w := WriteRegister (slave_id s) 4 1 in
link_writes evs = device_writes env s w /\
map fst (published evs) = device_acks env s w.
Proof. unfold device_writes, device_acks. device_run. Qed.

Lemma device_disable_run : forall s : state,
_connected s = true ->
let evs := events_since s
           (snd (StepperMQTTController.device_command env "disable" s)) in
let w := WriteRegister (slave_id s) 4 0 in
link_writes evs = device_writes env s w /\
map fst (published evs) = device_acks env s w.
Proof. unfold device_writes, device_acks. device_run. Qed.

Lemma device_reset_run : forall s : state,
_connected s = true ->
let evs := events_since s
           (snd (StepperMQTTController.device_command env "reset" s)) in
let w := WriteRegister (slave_id s) 5 1 in
link_writes evs = device_writes env s w /\
map fst (published evs) = device_acks env s w.
Proof. unfold device_writes, device_acks. device_run. Qed.

End DeviceLevel.

(** X23.  A device-level enable, disable or reset on a connected link
    writes for axis 0 and then for axis 1 and acknowledges each; when the
    write of axis 0 raises, nothing is acknowledged and axis 1 is not
    attempted; when the write of axis 1 raises, only axis 0 is
    acknowledged. *)
Theorem device_command_stops_at_first_exception
  (env : environment) (cmd : string) (w : request) (s : state)
  (Hconnected : _connected s = true)
  (Hcmd : cmd <> "stop")
  (Hcall : single_word_call (slave_id s) cmd = Some w) :
  let evs := events_since s
               (snd (StepperMQTTController.device_command env cmd s)) in
  link_writes evs = device_writes env s w /\
  map fst (published evs) = device_acks env s w.
Proof.
  unfold single_word_call in Hcall.
  destruct (String.eqb cmd "stop") eqn:E1;
    [apply String.eqb_eq in E1; contradiction|].
  destruct (String.eqb cmd "enable") eqn:E2.
  { apply String.eqb_eq in E2. subst cmd. injection Hcall as <-.
    apply device_enable_run. exact Hconnected. }
  destruct (String.eqb cmd "disable") eqn:E3.
  { apply String.eqb_eq in E3. subst cmd. injection Hcall as <-.
    apply device_disable_run. exact Hconnected. }
  destruct (String.eqb cmd "reset") eqn:E4; [|discriminate].
  apply String.eqb_eq in E4. subst cmd. injection Hcall as <-.
  apply device_reset_run. exact Hconnected.
Qed.

(** A reset on a serial side that raises. *)
Lemma device_command_stops_at_first_exception_witness :
  link_writes
    (events_since (fresh 1 true)
       (snd (StepperMQTTController.device_command broken "reset"
               (fresh 1 true))))
    = [WriteRegister 1 5 1].
Proof.
  refine (proj1 (device_command_stops_at_first_exception broken "reset"
                   (WriteRegister 1 5 1) (fresh 1 true) eq_refl _ eq_refl)).
  discriminate.
Defined.

(** ** Commands that are not known *)

(** X24.  An axis-level command outside the ten known ones, and a
    device-level command other than enable, disable and reset (a
    device-level stop or home, for instance), does nothing. *)
Theorem unknown_commands_are_dropped
  (env : environment) (cmd dcmd : string) (i : Z) (doc : pyval) (s : state) :
  ~ In cmd ["move_absolute"; "move_relative"; "home"; "stop"; "enable";
            "disable"; "reset"; "enable_servo"; "disable_servo";
            "servo_speed"] ->
  ~ In dcmd ["enable"; "disable"; "reset"] ->
  StepperMQTTController.axis_command env cmd i doc s = (Ret tt, s) /\
  StepperMQTTController.device_command env dcmd s = (Ret tt, s).
Proof.
  intros H Hd. split.
  - unfold StepperMQTTController.axis_command.
    repeat match goal with
           | |- context [String.eqb cmd ?k] =>
               destruct (String.eqb_spec cmd k) as [E|_];
               [exfalso; apply H; rewrite E; simpl; auto 12|]
           end.
    reflexivity.
  - unfold StepperMQTTController.device_command.
    repeat match goal with
           | |- context [String.eqb dcmd ?k] =>
               destruct (String.eqb_spec dcmd k) as [E|_];
               [exfalso; apply Hd; rewrite E; simpl; auto|]
           end.
    reflexivity.
Qed.

(** The axis-level command ["move"] and a device-level stop. *)
Lemma unknown_commands_are_dropped_witness :
  StepperMQTTController.axis_command healthy "move" 0 (VDict [])
    (fresh 1 true) = (Ret tt, fresh 1 true) /\
  StepperMQTTController.device_command healthy "stop" (fresh 1 true)
    = (Ret tt, fresh 1 true).
Proof.
  apply unknown_commands_are_dropped; simpl; intros H;
    repeat (destruct H as [H | H]; [discriminate H|]); exact H.
Defined.

(** ** Topics of other shapes *)

(** X25.  A topic of exactly four segments, or of four or more segments
    whose third segment is not ["axis"], does nothing, whatever the
    payload. *)
Theorem topic_without_axis_form_is_dropped
  (env : environment) (topic payload : string) (s : state) :
  (4 <= List.length (Py.split topic "/"))%nat ->
  List.length (Py.split topic "/") = 4%nat \/
  nth 2 (Py.split topic "/") EmptyString <> "axis" ->
  StepperMQTTController._on_command env topic payload s = s.
Proof.
  intros Hlen Hshape.
  unfold StepperMQTTController._on_command,
    StepperMQTTController.on_command_body.
  set (parts := Py.split topic "/") in *.
  set (n := Z.of_nat (List.length parts)) in *.
  destruct (n <? 3); [reflexivity|].
  unfold bind, gets.
  destruct (negb _); [reflexivity|].
  destruct (Json.loads payload) as [doc|]; [|reflexivity].
  assert (E3 : (n =? 3) = false) by (apply Z.eqb_neq; subst n; lia).
  rewrite E3.
  destruct Hshape as [H4 | Hax].
  - assert (E5 : (5 <=? n) = false) by (apply Z.leb_gt; subst n; lia).
    rewrite E5. reflexivity.
  - apply String.eqb_neq in Hax. rewrite Hax, andb_false_r. reflexivity.
Qed.

(** The third segment ["motor"]. *)
Lemma topic_without_axis_form_is_dropped_witness :
  StepperMQTTController._on_command healthy "stepper/1/motor/0/stop" "{}"
    (fresh 1 true) = fresh 1 true.
Proof.
  apply topic_without_axis_form_is_dropped.
  - vm_compute. lia.
  - right. vm_compute. discriminate.
Defined.

(** X26.  Segments after the command are ignored: unless the command
    segment is ["move"], a topic with further segments is handled exactly
    as the five-segment topic. *)
Theorem trailing_segments_are_ignored
  (env : environment) (topic topic' payload : string) (s : state)
  (root dev ax cmd : string) (extra : list string) :
  Py.split topic "/" = root :: dev :: "axis" :: ax :: cmd :: extra ->
  Py.split topic' "/" = [root; dev; "axis"; ax; cmd] ->
  cmd <> "move" ->
  StepperMQTTController._on_command env topic payload s
    = StepperMQTTController._on_command env topic' payload s.
Proof.
  intros Ht Ht' Hm.
  unfold StepperMQTTController._on_command,
    StepperMQTTController.on_command_body.
  rewrite Ht, Ht'. apply String.eqb_neq in Hm.
  cbn [nth List.length].
  set (n := Z.of_nat (S (S (S (S (S (List.length extra))))))).
  assert (Hn : 5 <= n) by (subst n; lia).
  assert (E1 : (n <? 3) = false) by (apply Z.ltb_ge; lia).
  assert (E3 : (n =? 3) = false) by (apply Z.eqb_neq; lia).
  assert (E5 : (5 <=? n) = true) by (apply Z.leb_le; lia).
  rewrite E1, E3, E5, Hm, andb_false_r.
  change (Z.of_nat 5 <? 3) with false.
  change (Z.of_nat 5 =? 3) with false.
  change (5 <=? Z.of_nat 5) with true.
  rewrite andb_false_r. reflexivity.
Qed.

(** Two segments after [stop]. *)
Lemma trailing_segments_are_ignored_witness :
  StepperMQTTController._on_command healthy "stepper/1/axis/0/stop/now/please"
    "{}" (fresh 1 true)
  = StepperMQTTController._on_command healthy "stepper/1/axis/0/stop" "{}"
      (fresh 1 true).
Proof.
  apply (trailing_segments_are_ignored healthy
           "stepper/1/axis/0/stop/now/please" "stepper/1/axis/0/stop" "{}"
           (fresh 1 true) "stepper" "1" "0" "stop" ["now"; "please"]);
    [reflexivity | reflexivity | discriminate].
Defined.


(** ** Life cycle *)

Lemma subscribe_all (topics : list string) :
  forall b : bridge,
    mqtt_client b = true ->
    fold_left (fun b topic => mqtt_subscribe topic b) topics b =
      mkBridge (core b) (running b) (poll_thread b) true (mqtt_connected b)
        (subscriptions b ++ topics).
Proof.
  induction topics as [|t topics IH]; intros b H.
  - destruct b as [s r p c m subs]. cbn in *. subst c.
    rewrite app_nil_r. reflexivity.
  - cbn [fold_left]. rewrite IH.
    + unfold mqtt_subscribe. rewrite H. cbn.
      rewrite <- app_assoc. reflexivity.
    + unfold mqtt_subscribe. rewrite H. reflexivity.
Qed.

Lemma subscribe_to_commands_with_client (b : bridge) :
  mqtt_client b = true ->
  _subscribe_to_commands b =
    mkBridge (core b) (running b) (poll_thread b) true (mqtt_connected b)
      (subscriptions b ++ command_topics).
Proof. apply subscribe_all. Qed.

(** X27.  [start] subscribes only after the link is connected.  When the
    broker is reachable it returns the value of [_connected]: on success
    the thirteen command topics are subscribed in order, [running] is set
    and a poll thread exists; when the link cannot be connected it
    returns [False] with nothing subscribed, [running] and the poll
    thread as they were and [status["connected"]] false, while the MQTT
    client stays created and connected.  When the broker cannot be
    reached the exception escapes before the link is touched. *)
Theorem start_subscribes_only_after_connecting
  (env : environment) (broker_up : bool) (b : bridge) :
  let r := fst (start env broker_up b) in
  let b' := snd (start env broker_up b) in
  mqtt_client b' = true /\
  if broker_up then
    r = Returned (_connected (core b')) /\ mqtt_connected b' = true /\
    if _connected (core b') then
      subscriptions b' = subscriptions b ++ command_topics /\
      running b' = true /\ poll_thread b' = true
    else
      subscriptions b' = subscriptions b /\ running b' = running b /\
      poll_thread b' = poll_thread b /\ status_connected (core b') = false
  else
    r = BrokerUnreachable /\ core b' = core b /\
    subscriptions b' = subscriptions b /\ running b' = running b /\
    poll_thread b' = poll_thread b /\ mqtt_connected b' = false.
Proof.
  unfold start. destruct broker_up; cbn [negb fst snd];
    [|cbn [mqtt_client core subscriptions running poll_thread
             mqtt_connected]; auto 10].
  destruct (connect_reports_link_state env (core b)) as [Hr _].
  destruct (ModbusConnection.connect env (core b)) as [r s1].
  cbn [fst snd] in Hr. subst r. cbv beta iota zeta.
  assert (Hs : _connected (set_status_connected (_connected s1) s1)
               = _connected s1) by reflexivity.
  destruct (_connected s1) eqn:Hc; cbn [negb fst snd].
  - rewrite subscribe_to_commands_with_client by reflexivity.
    cbn [mqtt_client core subscriptions running poll_thread mqtt_connected].
    rewrite Hs. auto 10.
  - cbn [mqtt_client core subscriptions running poll_thread mqtt_connected].
    rewrite Hs. auto 10.
Qed.

(** X28.  [stop] clears [running], never unsubscribes and publishes
    nothing; it closes the serial client only when the link is connected,
    and the link is left connected exactly when that close raises. *)
Theorem stop_effects (env : environment) (b : bridge) :
  let b' := stop env b in
  running b' = false /\
  subscriptions b' = subscriptions b /\
  _connected (core b') =
    (_connected (core b)
     && match env (calls (core b)) ClientClose with
        | Raises => true
        | _ => false
        end) /\
  wire_calls (events_since (core b) (core b')) =
    (if _connected (core b) then [ClientClose] else []) /\
  published (events_since (core b) (core b')) = [].
Proof.
  unfold stop.
  destruct (disconnect_reports_link_state env (core b)) as [_ [Hc Hw]].
  assert (Hp : published
                 (events_since (core b)
                    (snd (ModbusConnection.disconnect env (core b)))) = []).
  { unfold events_since. unfold_connection.
    destruct (core b) as [sid c sc se p n t]. destruct c; simpl;
      [destruct (env n ClientClose)|]; simpl;
      rewrite <- ?app_assoc, ?skipn_own_app, ?skipn_all; reflexivity. }
  destruct (ModbusConnection.disconnect env (core b)) as [r s1].
  cbn [fst snd core running subscriptions] in *. auto.
Qed.

(** X29.  Once a [stop] has left the link disconnected, a second [stop]
    changes nothing and makes no call on the serial side. *)
Theorem stop_twice
  (env : environment) (b : bridge) :
  _connected (core (stop env b)) = false ->
  stop env (stop env b) = stop env b.
Proof.
  intros H. unfold stop at 1.
  set (b1 := stop env b) in *.
  assert (Hd : ModbusConnection.disconnect env (core b1) = (Ret true, core b1)).
  { unfold ModbusConnection.disconnect, bind, gets, ret. rewrite H.
    reflexivity. }
  rewrite Hd.
  subst b1. unfold stop.
  destruct (ModbusConnection.disconnect env (core b)) as [r s1].
  cbn [core running poll_thread mqtt_client mqtt_connected subscriptions].
  destruct (mqtt_client b); reflexivity.
Qed.

(** Two stops of a started controller on a healthy link. *)
Lemma stop_twice_witness :
  let b := mkBridge (fresh 1 true) true true true true command_topics in
  stop healthy (stop healthy b) = stop healthy b.
Proof.
  intros b. apply stop_twice. reflexivity.
Defined.


(** ** The device segment of a command topic *)






















